(** * The producer / processor / consumer pipeline

    A shallow embedding of the three C++ services
    ([producer/producer.cpp], its earlier revision without environment
    configuration, [processor/processor.cpp] and [consumer/consumer.cpp])
    and the properties their specification states about them.

    The services are written against two header-only libraries,
    cpp-httplib and nlohmann::json, and against [<random>].  What the
    services ask of them is collected in the class [Library]; the code of
    the services is embedded over an arbitrary instance of it.  A concrete
    instance ([Reference.reference_library]) makes every definition
    runnable. *)

From Stdlib Require Import ZArith List String Ascii Bool Lia.
From Stdlib Require Import DecimalString.
From Stdlib Require DecimalPos.
Import ListNotations.
Local Open Scope string_scope.
Local Open Scope Z_scope.
Local Set Warnings "-register-all".

(* ===================================================================== *)
(** * JSON values *)
(* ===================================================================== *)

(** [nlohmann::json] as the services use it: null, booleans, integers,
    strings, arrays and objects.  An object is a [std::map] from key to
    value, so its fields are kept sorted by key and a key occurs once.
    (Floating-point numbers and binary values are never built by the
    services and are left out.) *)
Inductive json : Type :=
| JNull
| JBool (b : bool)
| JInt (z : Z)
| JString (s : string)
| JArray (items : list json)
| JObject (fields : list (string * json)).

(** [std::map::find]. *)
Fixpoint obj_find (key : string) (fields : list (string * json)) : option json :=
  match fields with
  | [] => None
  | (k, v) :: rest => if String.eqb key k then Some v else obj_find key rest
  end.

(** [std::map] insertion or assignment at [key], keeping the key order. *)
Fixpoint obj_set (key : string) (v : json) (fields : list (string * json))
  : list (string * json) :=
  match fields with
  | [] => [(key, v)]
  | (k, v') :: rest =>
      match String.compare key k with
      | Lt => (key, v) :: (k, v') :: rest
      | Eq => (k, v) :: rest
      | Gt => (k, v') :: obj_set key v rest
      end
  end.

(** The object with the given fields, inserted from left to right. *)
Definition obj_of (kvs : list (string * json)) : json :=
  JObject (fold_left (fun acc kv => obj_set (fst kv) (snd kv) acc) kvs []).

(** What a C++ exception of the program is; all of them derive from
    [std::exception]. *)
Inductive exn : Type :=
| parse_error (text : string)          (* json::parse on a malformed text *)
| type_error (id : Z) (j : json)       (* json used at the wrong type *)
| invalid_argument (fn : string)       (* std::stoi: no digits *)
| out_of_range (fn : string).          (* std::stoi: beyond int *)

(** A computation that returns or throws. *)
Inductive outcome (A : Type) : Type :=
| Ok (a : A)
| Throw (e : exn).
Arguments Ok {A} a.
Arguments Throw {A} e.

(** Non-const [json::operator[](key)]: a null value becomes an empty
    object, a missing key is inserted with a null value; the element and
    the updated container are returned.  Any other kind of value throws
    [type_error] 305. *)
Definition json_index (j : json) (key : string) : outcome (json * json) :=
  match j with
  | JNull => Ok (JNull, JObject [(key, JNull)])
  | JObject fields =>
      match obj_find key fields with
      | Some v => Ok (v, JObject fields)
      | None => Ok (JNull, JObject (obj_set key JNull fields))
      end
  | _ => Throw (type_error 305 j)
  end.

(** [j[key] = v]. *)
Definition json_assign (j : json) (key : string) (v : json) : outcome json :=
  match j with
  | JNull => Ok (JObject [(key, v)])
  | JObject fields => Ok (JObject (obj_set key v fields))
  | _ => Throw (type_error 305 j)
  end.

(** The C++ [int]: 32 bits, two's complement.  [wrap_int] is the value
    an [int] holds after a conversion or an operation whose exact result
    is [z] (overflow of a signed operation, undefined in C++, is taken to
    wrap around as it does on the machine). *)
Definition int_min : Z := - 2 ^ 31.
Definition int_max : Z := 2 ^ 31 - 1.
Definition wrap_int (z : Z) : Z := (z + 2 ^ 31) mod 2 ^ 32 - 2 ^ 31.

(** The implicit conversion [int x = j]: numbers are cast, a boolean is
    0 or 1, anything else throws [type_error] 302. *)
Definition json_get_int (j : json) : outcome Z :=
  match j with
  | JInt z => Ok (wrap_int z)
  | JBool b => Ok (if b then 1 else 0)
  | _ => Throw (type_error 302 j)
  end.

(** Decimal text of an [int], as [operator<<] prints it. *)
Definition string_of_Z (z : Z) : string := NilZero.string_of_int (Z.to_int z).

(* ===================================================================== *)
(** * The world *)
(* ===================================================================== *)

Inductive ostream : Type := Cout | Cerr.

(** What a service does that can be seen from outside, in order. *)
Inductive event : Type :=
| Getenv (name : string)                 (* std::getenv *)
| HttpGet (base path : string)           (* httplib::Client(base).Get(path) *)
| Print (s : ostream) (text : string)    (* s << text *)
| Endl (s : ostream)                     (* s << std::endl *)
| Flush (s : ostream)                    (* s.flush() *)
| Sleep (seconds : Z)                    (* std::this_thread::sleep_for *)
| Entropy.                               (* std::random_device::operator() *)

(** An HTTP response as the client sees it. *)
Record Response : Type := mkResponse {
  status : Z;
  body : string;
  content_type : string;
  headers : list (string * string)
}.

(** [httplib::Result]: empty when the transport failed (connection
    refused, timeout, ...), else the response. *)
Definition Result : Type := option Response.

(** The environment of a process: its environment variables, what each
    outbound request will be answered with (by its number, target and
    path), the random device, and the events so far. *)
Record world : Type := mkWorld {
  environ : string -> option string;
  upstream : nat -> string -> string -> Result;
  device : nat -> Z;
  requests : nat;
  draws : nat;
  trace : list event
}.

(** Computations over a state [S] that return or throw; the state reached
    when an exception is thrown is kept, as output already written and
    objects already assigned are in C++. *)
Definition M (S A : Type) : Type := S -> outcome A * S.

Definition ret {S A} (a : A) : M S A := fun s => (Ok a, s).

Definition bind {S A B} (m : M S A) (k : A -> M S B) : M S B :=
  fun s => match m s with
           | (Ok a, s') => k a s'
           | (Throw e, s') => (Throw e, s')
           end.

Definition throw {S A} (e : exn) : M S A := fun s => (Throw e, s).

(** [try { m } catch (const std::exception& e) { h e }] *)
Definition try_catch {S A} (m : M S A) (h : exn -> M S A) : M S A :=
  fun s => match m s with
           | (Ok a, s') => (Ok a, s')
           | (Throw e, s') => h e s'
           end.

Definition lift_outcome {S A} (o : outcome A) : M S A := fun s => (o, s).

Declare Scope cpp_scope.
Delimit Scope cpp_scope with cpp.
Notation "x <- m ;; k" := (bind m (fun x => k))
  (at level 100, m at next level, right associativity) : cpp_scope.
Notation "m ;; k" := (bind m (fun _ => k))
  (at level 100, right associativity) : cpp_scope.
Local Open Scope cpp_scope.

Definition emit (e : event) : M world unit :=
  fun w => (Ok tt, mkWorld (environ w) (upstream w) (device w)
                           (requests w) (draws w) (trace w ++ [e])).

Definition print (s : ostream) (text : string) : M world unit := emit (Print s text).
Definition endl (s : ostream) : M world unit := emit (Endl s).
Definition flush (s : ostream) : M world unit := emit (Flush s).
Definition sleep_for (seconds : Z) : M world unit := emit (Sleep seconds).

(** [std::getenv]. *)
Definition getenv (name : string) : M world (option string) :=
  fun w => (Ok (environ w name),
            mkWorld (environ w) (upstream w) (device w)
                    (requests w) (draws w) (trace w ++ [Getenv name])).

(** [httplib::Client cli(base); cli.Get(path)]: never throws; the answer
    is the environment's. *)
Definition client_get (base path : string) : M world Result :=
  fun w => (Ok (upstream w (requests w) base path),
            mkWorld (environ w) (upstream w) (device w)
                    (S (requests w)) (draws w) (trace w ++ [HttpGet base path])).

(** [std::random_device rd; rd()]. *)
Definition random_device : M world Z :=
  fun w => (Ok (device w (draws w)),
            mkWorld (environ w) (upstream w) (device w)
                    (requests w) (S (draws w)) (trace w ++ [Entropy])).

(* ===================================================================== *)
(** * What the libraries provide *)
(* ===================================================================== *)

(** [json.hpp], [httplib.h] and [<random>] are not part of the services'
    sources.  The services depend on them through these operations only. *)
Class Library : Type := mkLibrary {
  (** [json::parse]: the value, or nothing when the text is not JSON (the
      call then throws [parse_error]) *)
  parse : string -> option json;
  (** [json::dump()], also what [operator<<] prints for a json value *)
  dump : json -> string;
  (** [std::exception::what()] *)
  what : exn -> string;
  (** [std::mt19937 gen(seed); std::uniform_int_distribution<>(a, b)(gen)] *)
  uniform_int : Z -> Z -> Z -> Z;
  uniform_int_range : forall a b seed, a <= b -> a <= uniform_int a b seed <= b
}.

Definition json_parse `{Library} {S} (text : string) : M S json :=
  match parse text with
  | Some j => ret j
  | None => throw (parse_error text)
  end.

(* ===================================================================== *)
(** * [std::stoi] *)
(* ===================================================================== *)

Definition is_space (c : ascii) : bool :=
  let n := nat_of_ascii c in
  (Nat.eqb n 32 || (Nat.leb 9 n && Nat.leb n 13))%bool.

Definition digit_of (c : ascii) : option Z :=
  let n := nat_of_ascii c in
  if (Nat.leb 48 n && Nat.leb n 57)%bool then Some (Z.of_nat n - 48) else None.

Fixpoint skip_spaces (s : string) : string :=
  match s with
  | String c rest => if is_space c then skip_spaces rest else s
  | EmptyString => s
  end.

(** Value of the longest prefix of decimal digits, and how many there are. *)
Fixpoint read_digits (s : string) (acc : Z) (count : nat) : Z * nat :=
  match s with
  | String c rest =>
      match digit_of c with
      | Some d => read_digits rest (10 * acc + d) (S count)
      | None => (acc, count)
      end
  | EmptyString => (acc, count)
  end.

(** [std::stoi(s)]: leading white space, an optional sign, then digits;
    what follows the digits is ignored. *)
Definition stoi (s : string) : outcome Z :=
  let s1 := skip_spaces s in
  let '(negative, s2) :=
    match s1 with
    | String "-"%char rest => (true, rest)
    | String "+"%char rest => (false, rest)
    | _ => (false, s1)
    end in
  let '(magnitude, count) := read_digits s2 0 0 in
  match count with
  | O => Throw (invalid_argument "stoi")
  | _ =>
      let v := if negative then - magnitude else magnitude in
      if ((int_min <=? v) && (v <=? int_max))%bool then Ok v
      else Throw (out_of_range "stoi")
  end.

(* ===================================================================== *)
(** * The HTTP server *)
(* ===================================================================== *)

Record Request : Type := mkRequest {
  method : string;
  path : string;
  req_headers : list (string * string);
  req_body : string
}.

(** A handler runs on the world and on the response object the server
    hands to it. *)
Definition Handler : Type := Request -> M (world * Response) unit.

(** The routes of a server, as registered by [svr.Get(pattern, handler)]. *)
Definition Server : Type := list (string * Handler).

Definition in_world {A} (m : M world A) : M (world * Response) A :=
  fun s => let '(o, w') := m (fst s) in (o, (w', snd s)).

(** [res.status = code]. *)
Definition set_status (code : Z) : M (world * Response) unit :=
  fun s => let r := snd s in
           (Ok tt, (fst s, mkResponse code (body r) (content_type r) (headers r))).

(** [res.set_content(text, type)]. *)
Definition set_content (text type : string) : M (world * Response) unit :=
  fun s => let r := snd s in
           (Ok tt, (fst s, mkResponse (status r) text type (headers r))).

(** The response object before the handler runs. *)
Definition fresh_response : Response := mkResponse (-1) "" "" [].

Fixpoint find_route (svr : Server) (p : string) : option Handler :=
  match svr with
  | [] => None
  | (pattern, h) :: rest => if String.eqb pattern p then Some h else find_route rest p
  end.

(** Modelled from the spec: the HTTP transport ([httplib::Server], whose
    header [httplib.h] is not among the sources).  The specification has
    every answered route answer 200 unless the handler says otherwise
    (section 6) and no upstream failure end the process (section 7).  As
    in cpp-httplib: a handler registered with [Get] serves GET and HEAD
    requests whose path is its pattern; a handler that returns without
    having set a status is answered with 200; an exception that leaves a
    handler is caught, the status becomes 500, its text goes into the
    header EXCEPTION_WHAT, and what the handler had put into the response
    stays; a request that matches no route is answered with 404. *)
Definition process_request `{Library} (svr : Server) (req : Request) : M world Response :=
  fun w =>
    let finish (r : Response) :=
      if status r =? -1 then mkResponse 200 (body r) (content_type r) (headers r) else r in
    let routed :=
      if (String.eqb (method req) "GET" || String.eqb (method req) "HEAD")%bool
      then find_route svr (path req) else None in
    match routed with
    | Some h =>
        match h req (w, fresh_response) with
        | (Ok _, (w', r)) => (Ok (finish r), w')
        | (Throw e, (w', r)) =>
            (Ok (mkResponse 500 (body r) (content_type r)
                            (headers r ++ [("EXCEPTION_WHAT", what e)])), w')
        end
    | None => (Ok (mkResponse 404 "" "" []), w)
    end.

(** A loop [while (true) { body }] run for [fuel] iterations.  The loop has
    no [break] and no [return]: it is left only by an exception. *)
Inductive progress : Type := StillLooping.

Fixpoint while_true {S} (body : M S unit) (fuel : nat) : M S progress :=
  match fuel with
  | O => ret StillLooping
  | Datatypes.S n => body ;; while_true body n
  end.

(** What happens to a running service: the scheduler lets the background
    thread run one iteration of its loop, or a request arrives. *)
Inductive activity : Type :=
| Poll
| Incoming (req : Request).

(** [svr.listen] with a background loop beside it: the activities are
    taken in order, and the responses sent are collected. *)
Fixpoint run_schedule `{Library} (iteration : M world unit) (svr : Server)
  (sched : list activity) : M world (list Response) :=
  match sched with
  | [] => ret []
  | Poll :: rest => iteration ;; run_schedule iteration svr rest
  | Incoming req :: rest =>
      r <- process_request svr req ;;
      rs <- run_schedule iteration svr rest ;;
      ret (r :: rs)
  end.

(* ===================================================================== *)
(** * consumer/consumer.cpp *)
(* ===================================================================== *)

Module Consumer.
Section Code.
Context `{Library}.

(** Helper function to get env var with default *)
Definition getEnv (name defaultValue : string) : M world string :=
  value <- getenv name ;;
  ret (match value with Some v => v | None => defaultValue end).

Record Config : Type := mkConfig {
  port : Z;
  processorHost : string;
  processorPort : string;
  pollIntervalSeconds : Z;
  processorUrl : string
}.

Definition loadConfig : M world Config :=
  port_text <- getEnv "PORT" "8082" ;;
  cfg_port <- lift_outcome (stoi port_text) ;;
  cfg_processorHost <- getEnv "PROCESSOR_HOST" "processor" ;;
  cfg_processorPort <- getEnv "PROCESSOR_PORT" "8081" ;;
  interval_text <- getEnv "POLL_INTERVAL_SECONDS" "5" ;;
  cfg_pollIntervalSeconds <- lift_outcome (stoi interval_text) ;;
  let cfg_processorUrl := "http://" ++ cfg_processorHost ++ ":" ++ cfg_processorPort in
  ret (mkConfig cfg_port cfg_processorHost cfg_processorPort
                cfg_pollIntervalSeconds cfg_processorUrl).

(** [res && res->status == 200] *)
Definition is_ok (res : Result) : bool :=
  match res with
  | Some r => status r =? 200
  | None => false
  end.

Definition body_of (res : Result) : string :=
  match res with
  | Some r => body r
  | None => ""
  end.

(** The body of the [while (true)] of the background thread.  The
    operands of a chain of [<<] are evaluated from left to right (C++17),
    so what stands before a throwing [data[...]] is already written. *)
Definition poll_iteration (config : Config) : M world unit :=
  flush Cout ;;
  try_catch
    (res <- client_get (processorUrl config) "/process" ;;
     if is_ok res then
       data <- json_parse (body_of res) ;;
       print Cout "[CONSUME] Original: " ;;
       original <- lift_outcome (json_index data "original") ;;
       print Cout (dump (fst original)) ;;
       print Cout ", Processed: " ;;
       processed <- lift_outcome (json_index (snd original) "processed") ;;
       print Cout (dump (fst processed)) ;;
       endl Cout ;;
       flush Cout
     else
       print Cerr "[ERROR] Failed to call Processor service" ;;
       endl Cerr ;;
       flush Cerr)
    (fun e =>
       print Cerr "[ERROR] Consumption error: " ;;
       print Cerr (what e) ;;
       endl Cerr ;;
       flush Cerr) ;;
  flush Cout ;;
  sleep_for (pollIntervalSeconds config).

(** Background consumption thread, its loop run for [fuel] iterations. *)
Definition consumptionThread (config : Config) (fuel : nat) : M world progress :=
  flush Cout ;;
  sleep_for 1 ;;
  while_true (poll_iteration config) fuel.

(** Manual consume endpoint *)
Definition consume_handler (config : Config) : Handler := fun _ =>
  in_world (print Cout "[MANUAL] Consume endpoint called" ;; endl Cout ;; flush Cout) ;;
  processor_res <- in_world (client_get (processorUrl config) "/process") ;;
  if is_ok processor_res then
    set_content (body_of processor_res) "application/json" ;;
    data <- json_parse (body_of processor_res) ;;
    in_world (print Cout "[MANUAL] Original: ") ;;
    original <- lift_outcome (json_index data "original") ;;
    in_world (print Cout (dump (fst original))) ;;
    in_world (print Cout ", Processed: ") ;;
    processed <- lift_outcome (json_index (snd original) "processed") ;;
    in_world (print Cout (dump (fst processed))) ;;
    in_world (endl Cout) ;;
    in_world (flush Cout)
  else
    error <- lift_outcome (json_assign JNull "error"
                             (JString "Failed to call Processor service")) ;;
    set_status 500 ;;
    set_content (dump error) "application/json".

(** Health check endpoint *)
Definition health_handler : Handler := fun _ =>
  health <- lift_outcome (json_assign JNull "status" (JString "healthy")) ;;
  health <- lift_outcome (json_assign health "service" (JString "consumer")) ;;
  set_content (dump health) "application/json".

(** The routes [main] registers. *)
Definition routes (config : Config) : Server :=
  [("/consume", consume_handler config); ("/health", health_handler)].

(** [main], followed by what the schedule makes of the detached thread
    and of the listening server (the port is taken to be free). *)
Definition main (sched : list activity) : M world (list Response) :=
  print Cout "Consumer starting..." ;; endl Cout ;;
  config <- loadConfig ;;
  print Cout "Consumer configuration:" ;; endl Cout ;;
  print Cout "  Port: " ;; print Cout (string_of_Z (port config)) ;; endl Cout ;;
  print Cout "  Processor URL: " ;; print Cout (processorUrl config) ;; endl Cout ;;
  print Cout "  Poll interval: " ;;
  print Cout (string_of_Z (pollIntervalSeconds config)) ;; print Cout "s" ;; endl Cout ;;
  (* the thread starts *)
  flush Cout ;; sleep_for 1 ;;
  flush Cout ;;
  let svr := routes config in
  print Cout "Listening on http://0.0.0.0:" ;;
  print Cout (string_of_Z (port config)) ;; endl Cout ;;
  print Cout "Background consumption running every " ;;
  print Cout (string_of_Z (pollIntervalSeconds config)) ;; print Cout " seconds" ;;
  endl Cout ;;
  flush Cout ;;
  run_schedule (poll_iteration config) svr sched.

End Code.
End Consumer.

(* ===================================================================== *)
(** * processor/processor.cpp *)
(* ===================================================================== *)

Module Processor.
Section Code.
Context `{Library}.

(** Helper function to get env var with default *)
Definition getEnv (name defaultValue : string) : M world string :=
  value <- getenv name ;;
  ret (match value with Some v => v | None => defaultValue end).

Definition is_ok (res : Result) : bool :=
  match res with
  | Some r => status r =? 200
  | None => false
  end.

Definition body_of (res : Result) : string :=
  match res with
  | Some r => body r
  | None => ""
  end.

(** The [/process] handler; its capture list is empty. *)
Definition process_handler : Handler := fun _ =>
  (* Call the producer service *)
  producer_res <- in_world (client_get "http://producer:8080" "/data") ;;
  if is_ok producer_res then
    (* Parse the response from Producer *)
    producer_data <- json_parse (body_of producer_res) ;;
    value <- lift_outcome (json_index producer_data "value") ;;
    original_value <- lift_outcome (json_get_int (fst value)) ;;
    (* Process it (multiply by 2) *)
    let processed_value := wrap_int (original_value * 2) in
    in_world (print Cout "Recieved: " ;;
              print Cout (string_of_Z original_value) ;;
              print Cout ", Processed: " ;;
              print Cout (string_of_Z processed_value) ;;
              endl Cout) ;;
    (* Return processed result *)
    response <- lift_outcome (json_assign JNull "original" (JInt original_value)) ;;
    response <- lift_outcome (json_assign response "processed" (JInt processed_value)) ;;
    set_content (dump response) "application/json"
  else
    (* Error calling Producer *)
    error <- lift_outcome (json_assign JNull "error"
                             (JString "Failed to call Producer service")) ;;
    set_status 500 ;;
    set_content (dump error) "application/json" ;;
    in_world (print Cerr "Error: Could not reach Producer" ;; endl Cerr).

(** What [main] computes before it registers the handler. *)
Record Settings : Type := mkSettings {
  port : Z;
  producerHost : string;
  producerPort : string;
  producerUrl : string
}.

(** Read configuration from environment *)
Definition read_settings : M world Settings :=
  port_text <- getEnv "PORT" "8081" ;;
  the_port <- lift_outcome (stoi port_text) ;;
  the_producerHost <- getEnv "PRODUCER_HOST" "producer" ;;
  the_producerPort <- getEnv "PRODUCER_PORT" "8080" ;;
  let the_producerUrl := "http://" ++ the_producerHost ++ ":" ++ the_producerPort in
  ret (mkSettings the_port the_producerHost the_producerPort the_producerUrl).

(** The routes [main] registers once the settings are read. *)
Definition routes (settings : Settings) : Server :=
  [("/process", process_handler)].

Definition main (sched : list activity) : M world (list Response) :=
  print Cout "Producer starting..." ;; endl Cout ;;
  settings <- read_settings ;;
  let svr := routes settings in
  print Cout "Processor listening on port " ;;
  print Cout (string_of_Z (port settings)) ;; endl Cout ;;
  print Cout "Producer URL: " ;; print Cout (producerUrl settings) ;; endl Cout ;;
  run_schedule (ret tt) svr sched.

End Code.
End Processor.

(* ===================================================================== *)
(** * producer/producer.cpp *)
(* ===================================================================== *)

Module Producer.
Section Code.
Context `{Library}.

(** Helper function to get env var with default *)
Definition getEnv (name defaultValue : string) : M world string :=
  value <- getenv name ;;
  ret (match value with Some v => v | None => defaultValue end).

(** The [/data] handler. *)
Definition data_handler : Handler := fun _ =>
  (* Generate random number *)
  seed <- in_world random_device ;;
  let value := uniform_int 1 100 seed in
  (* Create JSON Response *)
  response <- lift_outcome (json_assign JNull "value" (JInt value)) ;;
  set_content (dump response) "application/json" ;;
  in_world (print Cout "Generated: " ;; print Cout (string_of_Z value) ;; endl Cout).

Definition routes : Server := [("/data", data_handler)].

Definition main (sched : list activity) : M world (list Response) :=
  print Cout "Producer starting...:" ;; endl Cout ;;
  port_text <- getEnv "PORT" "8080" ;;
  port <- lift_outcome (stoi port_text) ;;
  let svr := routes in
  print Cout "Listening on port " ;; print Cout (string_of_Z port) ;; endl Cout ;;
  run_schedule (ret tt) svr sched.

End Code.
End Producer.

(** The producer before its port became configurable: the same handler,
    listening on port 8080. *)
Module ProducerFixedPort.
Section Code.
Context `{Library}.

Definition data_handler : Handler := fun _ =>
  (* Generate random number *)
  seed <- in_world random_device ;;
  let value := uniform_int 1 100 seed in
  (* Create JSON Response *)
  response <- lift_outcome (json_assign JNull "value" (JInt value)) ;;
  set_content (dump response) "application/json" ;;
  in_world (print Cout "Generated: " ;; print Cout (string_of_Z value) ;; endl Cout).

Definition routes : Server := [("/data", data_handler)].

Definition main (sched : list activity) : M world (list Response) :=
  print Cout "Producer starting...:" ;; endl Cout ;;
  let svr := routes in
  print Cout "Listening on http://localhost:8080" ;; endl Cout ;;
  run_schedule (ret tt) svr sched.

End Code.
End ProducerFixedPort.

(* ===================================================================== *)
(** * A reference instance of the libraries *)
(* ===================================================================== *)

(** A compact serializer and a parser for the JSON values above, the
    texts of the exceptions, and a uniform draw.  They instantiate
    [Library] so that the services can be run on concrete inputs. *)
Module Reference.

Definition quote : ascii := "034"%char.
Definition backslash : ascii := "092"%char.

Definition hex_digit (n : nat) : ascii :=
  if Nat.ltb n 10 then ascii_of_nat (48 + n) else ascii_of_nat (87 + n).

(** A string's characters as they stand between quotes. *)
Fixpoint escape (s : string) : string :=
  match s with
  | EmptyString => EmptyString
  | String c rest =>
      let n := nat_of_ascii c in
      if Ascii.eqb c quote then String backslash (String quote (escape rest))
      else if Ascii.eqb c backslash then String backslash (String backslash (escape rest))
      else if Nat.eqb n 8 then String backslash (String "b" (escape rest))
      else if Nat.eqb n 9 then String backslash (String "t" (escape rest))
      else if Nat.eqb n 10 then String backslash (String "n" (escape rest))
      else if Nat.eqb n 12 then String backslash (String "f" (escape rest))
      else if Nat.eqb n 13 then String backslash (String "r" (escape rest))
      else if Nat.ltb n 32 then
        String backslash ("u00" ++ String (hex_digit (n / 16))
                                     (String (hex_digit (n mod 16)) (escape rest)))
      else String c (escape rest)
  end.

Definition quoted (s : string) : string :=
  String quote (escape s ++ String quote EmptyString).

(** [dump()] with no indentation: no white space, fields in key order. *)
Fixpoint dump_json (j : json) : string :=
  match j with
  | JNull => "null"
  | JBool true => "true"
  | JBool false => "false"
  | JInt z => string_of_Z z
  | JString s => quoted s
  | JArray items =>
      "[" ++ (fix go (l : list json) : string :=
                match l with
                | [] => EmptyString
                | x :: rest =>
                    match rest with
                    | [] => dump_json x
                    | _ :: _ => dump_json x ++ "," ++ go rest
                    end
                end) items ++ "]"
  | JObject fields =>
      "{" ++ (fix go (l : list (string * json)) : string :=
                match l with
                | [] => EmptyString
                | (k, v) :: rest =>
                    match rest with
                    | [] => quoted k ++ ":" ++ dump_json v
                    | _ :: _ => quoted k ++ ":" ++ dump_json v ++ "," ++ go rest
                    end
                end) fields ++ "}"
  end.

Definition is_ws (c : ascii) : bool :=
  let n := nat_of_ascii c in
  (Nat.eqb n 32 || Nat.eqb n 9 || Nat.eqb n 10 || Nat.eqb n 13)%bool.

Fixpoint skip_ws (s : string) : string :=
  match s with
  | String c rest => if is_ws c then skip_ws rest else s
  | EmptyString => s
  end.

(** [s] without the prefix [p], when it has it. *)
Fixpoint strip_prefix (p s : string) : option string :=
  match p, s with
  | EmptyString, _ => Some s
  | String a p', String b s' => if Ascii.eqb a b then strip_prefix p' s' else None
  | String _ _, EmptyString => None
  end.

(** The characters of a string literal after its opening quote, up to the
    closing one; escapes other than the two-character ones are refused. *)
Fixpoint read_string (s : string) : option (string * string) :=
  match s with
  | EmptyString => None
  | String c rest =>
      if Ascii.eqb c quote then Some (EmptyString, rest)
      else if Ascii.eqb c backslash then
        match rest with
        | String e rest' =>
            let unescaped :=
              if Ascii.eqb e quote then Some quote
              else if Ascii.eqb e backslash then Some backslash
              else if Ascii.eqb e "/" then Some "/"%char
              else if Ascii.eqb e "b" then Some (ascii_of_nat 8)
              else if Ascii.eqb e "t" then Some (ascii_of_nat 9)
              else if Ascii.eqb e "n" then Some (ascii_of_nat 10)
              else if Ascii.eqb e "f" then Some (ascii_of_nat 12)
              else if Ascii.eqb e "r" then Some (ascii_of_nat 13)
              else None in
            match unescaped, read_string rest' with
            | Some u, Some (text, after) => Some (String u text, after)
            | _, _ => None
            end
        | EmptyString => None
        end
      else if Nat.ltb (nat_of_ascii c) 32 then None
      else
        match read_string rest with
        | Some (text, after) => Some (String c text, after)
        | None => None
        end
  end.

(** An integer literal: an optional minus sign, then [0] or digits that do
    not start with [0]; a fraction or an exponent is refused. *)
Definition read_number (s : string) : option (Z * string) :=
  let '(negative, digits) :=
    match s with
    | String "-"%char rest => (true, rest)
    | _ => (false, s)
    end in
  let '(magnitude, count) := read_digits digits 0 0 in
  let after := substring count (String.length digits - count) digits in
  let leading_zero :=
    match digits with
    | String "0"%char _ => Nat.ltb 1 count
    | _ => false
    end in
  let continues :=
    match after with
    | String c _ => (Ascii.eqb c "." || Ascii.eqb c "e" || Ascii.eqb c "E")%bool
    | EmptyString => false
    end in
  match count with
  | O => None
  | _ => if (leading_zero || continues)%bool then None
         else Some (if negative then - magnitude else magnitude, after)
  end.

(** A JSON value at the head of [s], and what follows it. *)
Fixpoint read_value (fuel : nat) (s : string) {struct fuel} : option (json * string) :=
  match fuel with
  | O => None
  | S n =>
      match skip_ws s with
      | EmptyString => None
      | String c rest as text =>
          if Ascii.eqb c "n" then option_map (pair JNull) (strip_prefix "null" text)
          else if Ascii.eqb c "t" then option_map (pair (JBool true)) (strip_prefix "true" text)
          else if Ascii.eqb c "f" then option_map (pair (JBool false)) (strip_prefix "false" text)
          else if Ascii.eqb c quote then
            match read_string rest with
            | Some (str, after) => Some (JString str, after)
            | None => None
            end
          else if Ascii.eqb c "[" then
            match skip_ws rest with
            | String "]"%char after => Some (JArray [], after)
            | _ =>
                match read_items n rest with
                | Some (items, after) => Some (JArray items, after)
                | None => None
                end
            end
          else if Ascii.eqb c "{" then
            match skip_ws rest with
            | String "}"%char after => Some (JObject [], after)
            | _ =>
                match read_members n rest [] with
                | Some (fields, after) => Some (JObject fields, after)
                | None => None
                end
            end
          else
            match read_number text with
            | Some (z, after) => Some (JInt z, after)
            | None => None
            end
      end
  end

(** The items of an array after its opening bracket, through the closing
    one. *)
with read_items (fuel : nat) (s : string) {struct fuel} : option (list json * string) :=
  match fuel with
  | O => None
  | S n =>
      match read_value n s with
      | Some (item, after) =>
          match skip_ws after with
          | String ","%char more =>
              match read_items n more with
              | Some (items, rest) => Some (item :: items, rest)
              | None => None
              end
          | String "]"%char rest => Some ([item], rest)
          | _ => None
          end
      | None => None
      end
  end

(** The members of an object after its opening brace, through the closing
    one; a key given again replaces the earlier value. *)
with read_members (fuel : nat) (s : string) (acc : list (string * json)) {struct fuel}
  : option (list (string * json) * string) :=
  match fuel with
  | O => None
  | S n =>
      match skip_ws s with
      | String c rest =>
          if Ascii.eqb c quote then
            match read_string rest with
            | Some (key, after_key) =>
                match skip_ws after_key with
                | String ":"%char after_colon =>
                    match read_value n after_colon with
                    | Some (v, after) =>
                        match skip_ws after with
                        | String ","%char more => read_members n more (obj_set key v acc)
                        | String "}"%char rest' => Some (obj_set key v acc, rest')
                        | _ => None
                        end
                    | None => None
                    end
                | _ => None
                end
            | None => None
            end
          else None
      | EmptyString => None
      end
  end.

(** The whole text as one JSON value. *)
Definition parse_json (text : string) : option json :=
  match read_value (2 * String.length text + 2) text with
  | Some (j, after) =>
      match skip_ws after with
      | EmptyString => Some j
      | String _ _ => None
      end
  | None => None
  end.

Definition what_text (e : exn) : string :=
  match e with
  | parse_error _ => "[json.exception.parse_error.101] parse error"
  | type_error id _ =>
      "[json.exception.type_error." ++ string_of_Z id ++ "] type error"
  | invalid_argument fn => fn
  | out_of_range fn => fn
  end.

(** A draw in [a .. b] from a seed. *)
Definition draw (a b seed : Z) : Z := a + seed mod (b - a + 1).

Lemma draw_range (a b seed : Z) : a <= b -> a <= draw a b seed <= b.
Proof.
  intros Hab. unfold draw.
  pose proof (Z.mod_pos_bound seed (b - a + 1) ltac:(lia)). lia.
Qed.

#[export] Instance reference_library : Library :=
  mkLibrary parse_json dump_json what_text draw draw_range.

End Reference.


(* ===================================================================== *)
(** * Reading a trace *)
(* ===================================================================== *)

(** The lines ended on either stream: one per [std::endl]. *)
Definition lines (t : list event) : nat :=
  List.length (filter (fun e => match e with Endl _ => true | _ => false end) t).

(** The outbound requests, as (target, path). *)
Definition http_gets (t : list event) : list (string * string) :=
  flat_map (fun e => match e with HttpGet b p => [(b, p)] | _ => [] end) t.

(** The environment variables read. *)
Definition getenvs (t : list event) : list string :=
  flat_map (fun e => match e with Getenv n => [n] | _ => [] end) t.

(** The durations slept. *)
Definition sleeps (t : list event) : list Z :=
  flat_map (fun e => match e with Sleep n => [n] | _ => [] end) t.

(** The same world in another environment. *)
Definition with_environ (env : string -> option string) (w : world) : world :=
  mkWorld env (upstream w) (device w) (requests w) (draws w) (trace w).

(** The world once [evs] more events have happened, [n] of them outbound
    requests. *)
Definition after (w : world) (n : nat) (evs : list event) : world :=
  mkWorld (environ w) (upstream w) (device w) (n + requests w) (draws w)
          (trace w ++ evs).

(** A [GET] request for [p]. *)
Definition get_request (p : string) : Request := mkRequest "GET" p [] "".

(** The value of a variable in the environment, or its default. *)
Definition env_or (w : world) (name default : string) : string :=
  match environ w name with
  | Some v => v
  | None => default
  end.

(** A world whose upstream answers every request with [res]. *)
Definition world_answering (res : Result) : world :=
  mkWorld (fun _ => None) (fun _ _ _ => res) (fun _ => 0) 0 0 [].

(** The consumer's configuration when no variable is set. *)
Definition default_config : Consumer.Config :=
  Consumer.mkConfig 8082 "processor" "8081" 5 "http://processor:8081".

(* ===================================================================== *)
(** * The vocabulary of the statements *)
(* ===================================================================== *)

Section Vocabulary.
Context `{Library}.
Variable config : Consumer.Config.

(** The line of the [catch] block. *)
Definition consumption_error (e : exn) : list event :=
  [Print Cerr "[ERROR] Consumption error: "; Print Cerr (what e); Endl Cerr; Flush Cerr].

(** What one iteration writes once the upstream has answered [res]. *)
Definition poll_report (res : Result) : list event :=
  if Consumer.is_ok res then
    match parse (Consumer.body_of res) with
    | None => consumption_error (parse_error (Consumer.body_of res))
    | Some data =>
        match json_index data "original" with
        | Throw e => Print Cout "[CONSUME] Original: " :: consumption_error e
        | Ok (original, data') =>
            match json_index data' "processed" with
            | Throw e =>
                [Print Cout "[CONSUME] Original: "; Print Cout (dump original);
                 Print Cout ", Processed: "] ++ consumption_error e
            | Ok (processed, _) =>
                [Print Cout "[CONSUME] Original: "; Print Cout (dump original);
                 Print Cout ", Processed: "; Print Cout (dump processed);
                 Endl Cout; Flush Cout]
            end
        end
    end
  else [Print Cerr "[ERROR] Failed to call Processor service"; Endl Cerr; Flush Cerr].

(** The events of one iteration. *)
Definition iteration_events (res : Result) : list event :=
  [Flush Cout; HttpGet (Consumer.processorUrl config) "/process"] ++
  poll_report res ++
  [Flush Cout; Sleep (Consumer.pollIntervalSeconds config)].

(** The answer the next outbound request of [w] gets. *)
Definition next_answer (w : world) : Result :=
  upstream w (requests w) (Consumer.processorUrl config) "/process".

(** What holds of the events of every iteration: one line, one request to
    the configured upstream, and a sleep of the configured interval at the
    end. *)
Definition iteration_shape (evs : list event) : Prop :=
  lines evs = 1%nat /\
  http_gets evs = [(Consumer.processorUrl config, "/process")] /\
  sleeps evs = [Consumer.pollIntervalSeconds config] /\
  getenvs evs = [] /\
  exists front, evs = (front ++ [Sleep (Consumer.pollIntervalSeconds config)])%list.

(** What [GET /consume] writes before it has the upstream's answer. *)
Definition manual_prologue : list event :=
  [Print Cout "[MANUAL] Consume endpoint called"; Endl Cout; Flush Cout;
   HttpGet (Consumer.processorUrl config) "/process"].

(** The value the [/data] handler of a world will draw. *)
Definition next_value (w : world) : Z := uniform_int 1 100 (device w (draws w)).

(** The one target of the processor's outbound requests. *)
Definition producer_target : string * string := ("http://producer:8080", "/data").

(** The answer the producer gives to the next request of [w]. *)
Definition producer_answer (w : world) : Result :=
  upstream w (requests w) "http://producer:8080" "/data".

(** The int arithmetic of the handler is exact on [v]. *)
Definition doubling_fits (v : Z) : Prop := int_min <= 2 * v <= int_max.

End Vocabulary.

(** ** How a fetch is classified *)

Definition newline : string := String "010"%char EmptyString.

Definition same_stream (a b : ostream) : bool :=
  match a, b with
  | Cout, Cout | Cerr, Cerr => true
  | _, _ => false
  end.

(** The text that the events put on stream [s]. *)
Fixpoint printed (s : ostream) (evs : list event) : string :=
  match evs with
  | [] => EmptyString
  | Print s' text :: rest =>
      if same_stream s s' then text ++ printed s rest else printed s rest
  | Endl s' :: rest =>
      if same_stream s s' then newline ++ printed s rest else printed s rest
  | _ :: rest => printed s rest
  end.

(** [j[key]] on a freshly parsed object: the field, or null. *)
Definition field_or_null (key : string) (fields : list (string * json)) : json :=
  match obj_find key fields with
  | Some v => v
  | None => JNull
  end.

(** The body has integer fields original and processed. *)
Definition has_integer_fields (j : json) : Prop :=
  exists fields o p,
    j = JObject fields /\
    obj_find "original" fields = Some (JInt o) /\
    obj_find "processed" fields = Some (JInt p).

(** The failures of the upstream, as the specification lists them. *)
Inductive upstream_failure `{Library} : Result -> Prop :=
| transport_failure : upstream_failure None
| non_200_status (r : Response) : status r <> 200 -> upstream_failure (Some r)
| malformed_body (r : Response) :
    status r = 200 -> parse (body r) = None -> upstream_failure (Some r)
| missing_or_non_integer_fields (r : Response) (j : json) :
    status r = 200 -> parse (body r) = Some j -> ~ has_integer_fields j ->
    upstream_failure (Some r).

(** The poller treats an iteration as failed: its line went to the error
    stream and nothing was written to the output stream. *)
Definition poller_failure (evs : list event) : Prop :=
  ~ In (Endl Cout) evs /\
  exists reason, reason <> EmptyString /\ printed Cerr evs = reason ++ newline.

(** The poller treats an iteration as successful: one line on the output
    stream with the two values, nothing on the error stream. *)
Definition poller_success (evs : list event) : Prop :=
  printed Cerr evs = EmptyString /\
  exists original processed,
    printed Cout evs =
      "[CONSUME] Original: " ++ original ++ ", Processed: " ++ processed ++ newline.

(** A parsed body that [operator[]] accepts, as a list of fields. *)
Definition fields_of (j : json) : option (list (string * json)) :=
  match j with
  | JObject fields => Some fields
  | JNull => Some []
  | _ => None
  end.

(** The manual trigger treats a fetch as failed: status 500 and an error
    object with a reason that is not empty. *)
Definition handler_failure `{Library} (resp : Response) : Prop :=
  status resp = 500 /\
  exists reason, reason <> EmptyString /\
                 body resp = dump (obj_of [("error", JString reason)]).

(** What an iteration that got the answer [res] has put on the two
    streams: the line of the values, the line of the failed call, or the
    line of the caught exception, which for a body that is JSON but cannot
    be indexed follows the already written start of the line of values. *)
Definition outcome_logged `{Library} (res : Result) (evs : list event) : Prop :=
  if Consumer.is_ok res then
    match parse (Consumer.body_of res) with
    | Some j =>
        match fields_of j with
        | Some fields =>
            printed Cout evs =
              "[CONSUME] Original: " ++ dump (field_or_null "original" fields) ++
              ", Processed: " ++ dump (field_or_null "processed" fields) ++ newline /\
            printed Cerr evs = EmptyString
        | None =>
            printed Cout evs = "[CONSUME] Original: " /\
            printed Cerr evs =
              "[ERROR] Consumption error: " ++ what (type_error 305 j) ++ newline
        end
    | None =>
        printed Cout evs = EmptyString /\
        printed Cerr evs =
          "[ERROR] Consumption error: " ++
          what (parse_error (Consumer.body_of res)) ++ newline
    end
  else
    printed Cout evs = EmptyString /\
    printed Cerr evs = "[ERROR] Failed to call Processor service" ++ newline.

(** The events of the first [fuel] iterations of the poller in [w], one
    list per iteration. *)
Fixpoint poll_iterations `{Library} (config : Consumer.Config) (w : world)
  (fuel : nat) : list (list event) :=
  match fuel with
  | O => []
  | S n =>
      iteration_events config (next_answer config w) ::
      poll_iterations config (after w 1 (iteration_events config (next_answer config w))) n
  end.

(** ** Schedules *)

(** Whether a server with the single route [p] runs its handler on [req]. *)
Definition routed_to (p : string) (req : Request) : bool :=
  ((String.eqb (method req) "GET" || String.eqb (method req) "HEAD")
   && String.eqb p (path req))%bool.

(** How many requests of a schedule are routed to [p]. *)
Fixpoint count_routed (p : string) (sched : list activity) : nat :=
  match sched with
  | [] => 0
  | Poll :: rest => count_routed p rest
  | Incoming req :: rest =>
      ((if routed_to p req then 1 else 0) + count_routed p rest)%nat
  end.

(** ** Startup, schedules and the producer's answers *)

(** The configuration [loadConfig] builds in [w] from a port [p] and a poll
    interval [i]. *)
Definition config_of (w : world) (p i : Z) : Consumer.Config :=
  Consumer.mkConfig p (env_or w "PROCESSOR_HOST" "processor")
                    (env_or w "PROCESSOR_PORT" "8081") i
                    ("http://" ++ env_or w "PROCESSOR_HOST" "processor" ++ ":" ++
                     env_or w "PROCESSOR_PORT" "8081").

(** The reads of the environment of a complete [loadConfig]. *)
Definition startup_reads : list event :=
  [Getenv "PORT"; Getenv "PROCESSOR_HOST"; Getenv "PROCESSOR_PORT";
   Getenv "POLL_INTERVAL_SECONDS"].

(** How many iterations of the background loop a schedule holds. *)
Fixpoint count_polls (sched : list activity) : nat :=
  match sched with
  | [] => 0
  | Poll :: rest => S (count_polls rest)
  | Incoming _ :: rest => count_polls rest
  end.

(** How many requests arrive in a schedule. *)
Fixpoint count_incoming (sched : list activity) : nat :=
  match sched with
  | [] => 0
  | Poll :: rest => count_incoming rest
  | Incoming _ :: rest => S (count_incoming rest)
  end.

(** The one outbound request of the processor's handler. *)
Definition producer_request : list event := [HttpGet "http://producer:8080" "/data"].

(** The world once [d] values were drawn and [evs] more events happened. *)
Definition drawn (w : world) (d : nat) (evs : list event) : world :=
  mkWorld (environ w) (upstream w) (device w) (requests w) (d + draws w)
          (trace w ++ evs).

(** The answer to a request that matches no route. *)
Definition not_found : Response := mkResponse 404 "" "" [].

Section ProducerVocabulary.
Context `{Library}.

(** The answer of [/data] that carries [v]. *)
Definition data_response (v : Z) : Response :=
  mkResponse 200 (dump (obj_of [("value", JInt v)])) "application/json" [].

(** The responses of a producer to a schedule, from the random device. *)
Fixpoint data_responses (dev : nat -> Z) (d : nat) (sched : list activity)
  : list Response :=
  match sched with
  | [] => []
  | Poll :: rest => data_responses dev d rest
  | Incoming req :: rest =>
      if routed_to "/data" req
      then data_response (uniform_int 1 100 (dev d)) :: data_responses dev (S d) rest
      else not_found :: data_responses dev d rest
  end.

(** What a producer writes on its output while it serves a schedule. *)
Fixpoint data_log (dev : nat -> Z) (d : nat) (sched : list activity) : string :=
  match sched with
  | [] => EmptyString
  | Poll :: rest => data_log dev d rest
  | Incoming req :: rest =>
      if routed_to "/data" req
      then "Generated: " ++ string_of_Z (uniform_int 1 100 (dev d)) ++ newline ++
           data_log dev (S d) rest
      else data_log dev d rest
  end.

End ProducerVocabulary.

(* ===================================================================== *)
(** * Concrete worlds *)
(* ===================================================================== *)

(** The text [{"original": 42, "processed": 84}]. *)
Definition success_body : string :=
  "{" ++ Reference.quoted "original" ++ ": 42, " ++
  Reference.quoted "processed" ++ ": 84}".

Definition success_world : world :=
  world_answering (Some (mkResponse 200 success_body "application/json" [])).

(** An upstream that answers 200 with a text that is not JSON. *)
Definition malformed_world : world :=
  world_answering (Some (mkResponse 200 "not json" "text/plain" [])).

(** An upstream that answers 200 with the empty object. *)
Definition empty_object_world : world :=
  world_answering (Some (mkResponse 200 "{}" "application/json" [])).

(** An upstream that cannot be reached. *)
Definition unreachable_world : world := world_answering None.

(** The text [{"value": 42}]. *)
Definition value_body : string := "{" ++ Reference.quoted "value" ++ ": 42}".

(** A producer that answers 200 with the value 42. *)
Definition producer_world : world :=
  world_answering (Some (mkResponse 200 value_body "application/json" [])).

Definition default_settings : Processor.Settings :=
  Processor.mkSettings 8081 "producer" "8080" "http://producer:8080".

(** An environment that sets the consumer's port and upstream host. *)
Definition configured_environ (name : string) : option string :=
  if String.eqb name "PORT" then Some "9000"
  else if String.eqb name "PROCESSOR_HOST" then Some "localhost"
  else None.

Definition configured_world : world :=
  with_environ configured_environ unreachable_world.

(** An environment that points the processor at another producer. *)
Definition redirected_environ (name : string) : option string :=
  if String.eqb name "PRODUCER_HOST" then Some "elsewhere"
  else if String.eqb name "PRODUCER_PORT" then Some "9999"
  else None.

Definition sample_schedule : list activity :=
  [Poll; Incoming (get_request "/consume"); Incoming (get_request "/health"); Poll].

(** An upstream that answers every other request, starting with the
    first, and cannot be reached in between. *)
Definition alternating_world : world :=
  mkWorld (fun _ => None)
          (fun n _ _ =>
             if Nat.even n
             then Some (mkResponse 200 success_body "application/json" [])
             else None)
          (fun _ => 0) 0 0 [].

(** An upstream that answers 200 with a JSON array. *)
Definition array_world : world :=
  world_answering (Some (mkResponse 200 "[1,2]" "application/json" [])).

(** An environment whose PORT is set to [text]. *)
Definition port_environ (text : string) (name : string) : option string :=
  if String.eqb name "PORT" then Some text else None.

(** An environment with a port and a poll interval no service would want. *)
Definition unchecked_environ (name : string) : option string :=
  if String.eqb name "PORT" then Some "70000"
  else if String.eqb name "POLL_INTERVAL_SECONDS" then Some "-3"
  else None.

(** The text [{"unit": "x", "value": 4294967338}]. *)
Definition wide_value_body : string :=
  "{" ++ Reference.quoted "unit" ++ ": " ++ Reference.quoted "x" ++ ", " ++
  Reference.quoted "value" ++ ": 4294967338}".

Definition wide_value_world : world :=
  world_answering (Some (mkResponse 200 wide_value_body "application/json" [])).

Definition data_schedule : list activity :=
  [Incoming (get_request "/data"); Incoming (get_request "/other");
   Incoming (get_request "/data")].

(* ===================================================================== *)
(** * Tactics *)
(* ===================================================================== *)

(** Unfolding the operations of [M] down to functions on the state. *)
Ltac unfold_cpp :=
  unfold bind, ret, throw, try_catch, lift_outcome, in_world, set_status,
    set_content, print, endl, flush, sleep_for, emit, client_get, getenv,
    random_device, json_parse in *.

(** Closes a goal [exists resp evs, (Ok r, w') = (Ok resp, after w n evs) /\ ...]
    once both sides are explicit. *)
Ltac close_events n :=
  simpl; repeat rewrite <- app_assoc; simpl;
  eexists; exists n; eexists; unfold after; simpl;
  split; [reflexivity | split; reflexivity].


(** Closes a goal [exists resp evs, (Ok r, w') = (Ok resp, after w n evs) /\ ...]
    whose [n] is given. *)
Ltac close_exact :=
  simpl; repeat rewrite <- app_assoc; simpl;
  eexists; eexists; unfold after; simpl;
  split; [reflexivity | split; reflexivity].

(** The same for a goal whose last part holds of a failed fetch only. *)
Ltac close_silent :=
  simpl; repeat rewrite <- app_assoc; simpl;
  eexists; exists 1%nat; eexists; unfold after; simpl;
  split; [reflexivity | split; [reflexivity | intros _ Hok; first [discriminate Hok | reflexivity]]].

(* ===================================================================== *)
(** * Properties of the consumer's endpoints *)
(* ===================================================================== *)

Section ConsumerEndpoints.
Context `{Library}.
Variable config : Consumer.Config.

(** The health object, whichever way its two fields are listed. *)
Lemma health_object :
  obj_of [("status", JString "healthy"); ("service", JString "consumer")] =
  JObject [("service", JString "consumer"); ("status", JString "healthy")].
Proof. reflexivity. Qed.

(** C6. Every [GET /health], whatever else the request holds and whatever
    the upstream would answer, is answered with status 200 and the JSON
    object with fields status = healthy and service = consumer; the world
    is left as it was, so no outbound request is made. *)
Theorem health_always_healthy (req : Request) (w : world) :
  method req = "GET" ->
  path req = "/health" ->
  process_request (Consumer.routes config) req w =
    (Ok (mkResponse 200
           (dump (obj_of [("status", JString "healthy");
                          ("service", JString "consumer")]))
           "application/json" []),
     w).
Proof.
  intros Hmethod Hpath.
  unfold process_request. rewrite Hmethod, Hpath. reflexivity.
Qed.

(** What the manual trigger does when the upstream answers 200 with a
    text that parses to an object: the text is relayed as it came. *)
Lemma consume_relays_object (req : Request) (w : world) (r : Response) (j : json) :
  method req = "GET" ->
  path req = "/consume" ->
  upstream w (requests w) (Consumer.processorUrl config) "/process" = Some r ->
  status r = 200 ->
  parse (body r) = Some j ->
  (j = JNull \/ exists fields, j = JObject fields) ->
  fst (process_request (Consumer.routes config) req w) =
    Ok (mkResponse 200 (body r) "application/json" []).
Proof.
  intros Hmethod Hpath Hup Hstatus Hparse Hkind.
  unfold process_request. rewrite Hmethod, Hpath. simpl.
  unfold Consumer.consume_handler. unfold_cpp. simpl.
  rewrite Hup. simpl. rewrite Hstatus. simpl. rewrite Hparse. simpl.
  destruct Hkind as [-> | [fields ->]]; simpl; [reflexivity |].
  destruct (obj_find "original" fields); simpl;
    match goal with
    | |- context [obj_find "processed" ?l] => destruct (obj_find "processed" l)
    end; reflexivity.
Qed.

(** C1. When the upstream answers 200 with a body that reads as the object
    with integer fields original = o and processed = p, [GET /consume] is
    answered with status 200 and that very body. *)
Theorem consume_relays_success (req : Request) (w : world) (r : Response) (o p : Z) :
  method req = "GET" ->
  path req = "/consume" ->
  upstream w (requests w) (Consumer.processorUrl config) "/process" = Some r ->
  status r = 200 ->
  parse (body r) = Some (obj_of [("original", JInt o); ("processed", JInt p)]) ->
  exists resp,
    fst (process_request (Consumer.routes config) req w) = Ok resp /\
    status resp = 200 /\
    body resp = body r /\
    parse (body resp) = Some (obj_of [("original", JInt o); ("processed", JInt p)]).
Proof.
  intros Hmethod Hpath Hup Hstatus Hparse.
  exists (mkResponse 200 (body r) "application/json" []).
  split; [| simpl; auto].
  eapply consume_relays_object; eauto.
  right. eexists. reflexivity.
Qed.

End ConsumerEndpoints.

(* ===================================================================== *)
(** * The background poller *)
(* ===================================================================== *)

Lemma after_nil (w : world) : after w 0 [] = w.
Proof. destruct w; unfold after; simpl. now rewrite app_nil_r. Qed.

Lemma after_after (w : world) (n m : nat) (e1 e2 : list event) :
  after (after w n e1) m e2 = after w (m + n) (e1 ++ e2).
Proof.
  unfold after; simpl. now rewrite Nat.add_assoc, app_assoc.
Qed.

Lemma lines_app (t1 t2 : list event) : lines (t1 ++ t2) = (lines t1 + lines t2)%nat.
Proof. unfold lines. now rewrite filter_app, length_app. Qed.

Lemma http_gets_app (t1 t2 : list event) :
  http_gets (t1 ++ t2) = (http_gets t1 ++ http_gets t2)%list.
Proof. apply flat_map_app. Qed.

Lemma getenvs_app (t1 t2 : list event) : getenvs (t1 ++ t2) = (getenvs t1 ++ getenvs t2)%list.
Proof. apply flat_map_app. Qed.

Lemma sleeps_app (t1 t2 : list event) : sleeps (t1 ++ t2) = (sleeps t1 ++ sleeps t2)%list.
Proof. apply flat_map_app. Qed.

(** Running a sequence one operation at a time. *)
Lemma bind_emit {A} (e : event) (k : unit -> M world A) (w : world) :
  bind (emit e) k w = k tt (after w 0 [e]).
Proof. reflexivity. Qed.

Lemma bind_getenv {A} (name : string) (k : option string -> M world A) (w : world) :
  bind (getenv name) k w = k (environ w name) (after w 0 [Getenv name]).
Proof. reflexivity. Qed.

Lemma bind_ret {S A B} (a : A) (k : A -> M S B) (s : S) : bind (ret a) k s = k a s.
Proof. reflexivity. Qed.

Lemma bind_assoc {S A B C} (m : M S A) (f : A -> M S B) (g : B -> M S C) (s : S) :
  bind (bind m f) g s = bind m (fun x => bind (f x) g) s.
Proof. unfold bind. destruct (m s) as [[a | e] s']; reflexivity. Qed.

Lemma bind_lift_ok {S A B} (a : A) (k : A -> M S B) (s : S) :
  bind (lift_outcome (Ok a)) k s = k a s.
Proof. reflexivity. Qed.

Lemma bind_lift_throw {S A B} (e : exn) (k : A -> M S B) (s : S) :
  bind (lift_outcome (Throw e)) k s = (Throw e, s).
Proof. reflexivity. Qed.

Lemma environ_after (w : world) (n : nat) (evs : list event) :
  environ (after w n evs) = environ w.
Proof. reflexivity. Qed.

(** Steps through the leading prints and reads of the environment of a
    computation applied to a world. *)
Ltac step_startup :=
  unfold print, endl, flush, sleep_for;
  repeat (rewrite bind_assoc || rewrite bind_emit || rewrite bind_getenv ||
          rewrite bind_ret || rewrite environ_after).

Section Poller.
Context `{Library}.
Variable config : Consumer.Config.

(** An iteration always runs to its end, whatever the upstream answers. *)
Lemma poll_iteration_run (w : world) :
  Consumer.poll_iteration config w =
    (Ok tt, after w 1 (iteration_events config (next_answer config w))).
Proof.
  unfold Consumer.poll_iteration, iteration_events, poll_report, next_answer, after.
  unfold_cpp. simpl.
  destruct (upstream w (requests w) (Consumer.processorUrl config) "/process")
    as [r |]; simpl.
  2: { repeat rewrite <- app_assoc; reflexivity. }
  destruct (status r =? 200); simpl.
  2: { repeat rewrite <- app_assoc; reflexivity. }
  destruct (parse (body r)) as [data |]; simpl.
  2: { repeat rewrite <- app_assoc; reflexivity. }
  destruct data as [| b | z | s | items | fields]; simpl;
    try (repeat rewrite <- app_assoc; reflexivity).
  destruct (obj_find "original" fields); simpl;
    match goal with
    | |- context [obj_find "processed" ?l] => destruct (obj_find "processed" l)
    end; simpl; repeat rewrite <- app_assoc; reflexivity.
Qed.

Lemma poll_report_lines (res : Result) : lines (poll_report res) = 1%nat.
Proof.
  unfold poll_report.
  destruct (Consumer.is_ok res); [| reflexivity].
  destruct (parse (Consumer.body_of res)) as [data |]; [| reflexivity].
  destruct (json_index data "original") as [[original data'] | e]; [| reflexivity].
  destruct (json_index data' "processed") as [[processed data''] | e]; reflexivity.
Qed.

Lemma poll_report_quiet (res : Result) :
  http_gets (poll_report res) = [] /\ sleeps (poll_report res) = [] /\
  getenvs (poll_report res) = [].
Proof.
  unfold poll_report.
  destruct (Consumer.is_ok res); [| repeat split].
  destruct (parse (Consumer.body_of res)) as [data |]; [| repeat split].
  destruct (json_index data "original") as [[original data'] | e]; [| repeat split].
  destruct (json_index data' "processed") as [[processed data''] | e]; repeat split.
Qed.

Lemma iteration_events_shape (res : Result) :
  iteration_shape config (iteration_events config res).
Proof.
  destruct (poll_report_quiet res) as (Hg & Hs & He).
  unfold iteration_shape, iteration_events.
  repeat rewrite lines_app. repeat rewrite http_gets_app.
  repeat rewrite sleeps_app. repeat rewrite getenvs_app.
  rewrite poll_report_lines, Hg, Hs, He.
  repeat split.
  exists ([Flush Cout; HttpGet (Consumer.processorUrl config) "/process"] ++
          poll_report res ++ [Flush Cout])%list.
  repeat rewrite <- app_assoc. reflexivity.
Qed.

(** The loop for [fuel] iterations: it is still looping, and has made
    [fuel] iterations of the shape above. *)
Lemma while_true_poll (fuel : nat) (w : world) :
  exists iterations : list (list event),
    while_true (Consumer.poll_iteration config) fuel w =
      (Ok StillLooping, after w fuel (List.concat iterations)) /\
    List.length iterations = fuel /\
    Forall (iteration_shape config) iterations.
Proof.
  revert w. induction fuel as [| n IH]; intros w.
  - exists []. simpl. rewrite after_nil. repeat split. constructor.
  - destruct (IH (after w 1 (iteration_events config (next_answer config w))))
      as (iterations & Hrun & Hlen & Hall).
    exists (iteration_events config (next_answer config w) :: iterations).
    split; [| split].
    + simpl. unfold bind at 1. rewrite poll_iteration_run. rewrite Hrun.
      rewrite after_after. now rewrite Nat.add_1_r.
    + simpl. now rewrite Hlen.
    + constructor; [apply iteration_events_shape | exact Hall].
Qed.

End Poller.

(* ===================================================================== *)
(** * How the two paths classify a fetch *)
(* ===================================================================== *)

Lemma obj_find_set_other (key key' : string) (v : json) (fields : list (string * json)) :
  key <> key' -> obj_find key' (obj_set key v fields) = obj_find key' fields.
Proof.
  intros Hne. induction fields as [| [k v'] rest IH]; simpl.
  - destruct (String.eqb_spec key' key); congruence.
  - destruct (String.compare key k) eqn:Hcmp; simpl.
    + apply String.compare_eq_iff in Hcmp. subst k.
      destruct (String.eqb_spec key' key); congruence.
    + destruct (String.eqb_spec key' key); congruence.
    + now rewrite IH.
Qed.

Section FetchOutcomes.
Context `{Library}.
Variable config : Consumer.Config.

(** The manual trigger when the upstream cannot be reached or answers
    with another status than 200. *)
Lemma consume_reports_failure (req : Request) (w : world) :
  method req = "GET" ->
  path req = "/consume" ->
  Consumer.is_ok (next_answer config w) = false ->
  process_request (Consumer.routes config) req w =
    (Ok (mkResponse 500
           (dump (obj_of [("error", JString "Failed to call Processor service")]))
           "application/json" []),
     after w 1 (manual_prologue config)).
Proof.
  intros Hmethod Hpath Hok.
  unfold process_request. rewrite Hmethod, Hpath. simpl.
  unfold Consumer.consume_handler. unfold_cpp. simpl.
  unfold next_answer in Hok. rewrite Hok. simpl.
  unfold after, manual_prologue. simpl. repeat rewrite <- app_assoc. reflexivity.
Qed.

(** The manual trigger when the body does not parse: the exception leaves
    the handler, after the body was copied into the response. *)
Lemma consume_handler_throws (req : Request) (w : world) :
  Consumer.is_ok (next_answer config w) = true ->
  parse (Consumer.body_of (next_answer config w)) = None ->
  Consumer.consume_handler config req (w, fresh_response) =
    (Throw (parse_error (Consumer.body_of (next_answer config w))),
     (after w 1 (manual_prologue config),
      mkResponse (-1) (Consumer.body_of (next_answer config w)) "application/json" [])).
Proof.
  intros Hok Hparse.
  unfold Consumer.consume_handler. unfold_cpp. simpl.
  unfold next_answer in *. rewrite Hok. simpl. rewrite Hparse. simpl.
  unfold after, manual_prologue. simpl. repeat rewrite <- app_assoc. reflexivity.
Qed.

(** The poller's iteration by the kind of answer. *)
Lemma poll_report_not_ok (res : Result) :
  Consumer.is_ok res = false ->
  poll_report res =
    [Print Cerr "[ERROR] Failed to call Processor service"; Endl Cerr; Flush Cerr].
Proof. intros Hok. unfold poll_report. now rewrite Hok. Qed.

Lemma poll_report_malformed (res : Result) :
  Consumer.is_ok res = true ->
  parse (Consumer.body_of res) = None ->
  poll_report res = consumption_error (parse_error (Consumer.body_of res)).
Proof. intros Hok Hparse. unfold poll_report. now rewrite Hok, Hparse. Qed.

Lemma poll_report_object (res : Result) (j : json) (fields : list (string * json)) :
  Consumer.is_ok res = true ->
  parse (Consumer.body_of res) = Some j ->
  fields_of j = Some fields ->
  poll_report res =
    [Print Cout "[CONSUME] Original: "; Print Cout (dump (field_or_null "original" fields));
     Print Cout ", Processed: "; Print Cout (dump (field_or_null "processed" fields));
     Endl Cout; Flush Cout].
Proof.
  intros Hok Hparse Hfields. unfold poll_report. rewrite Hok, Hparse.
  destruct j as [| | | | | fs]; try discriminate; injection Hfields as <-;
    [reflexivity |].
  unfold json_index, field_or_null.
  destruct (obj_find "original" fs) as [v |].
  - destruct (obj_find "processed" fs); reflexivity.
  - rewrite obj_find_set_other by discriminate.
    destruct (obj_find "processed" fs); reflexivity.
Qed.

Lemma poll_report_not_indexable (res : Result) (j : json) :
  Consumer.is_ok res = true ->
  parse (Consumer.body_of res) = Some j ->
  fields_of j = None ->
  poll_report res =
    Print Cout "[CONSUME] Original: " :: consumption_error (type_error 305 j).
Proof.
  intros Hok Hparse Hfields. unfold poll_report. rewrite Hok, Hparse.
  destruct j; try discriminate; reflexivity.
Qed.

Lemma printed_iteration (s : ostream) (res : Result) :
  printed s (iteration_events config res) = printed s (poll_report res).
Proof.
  unfold iteration_events. simpl.
  induction (poll_report res) as [| e rest IH]; simpl; [reflexivity |].
  destruct e; try destruct (same_stream s s0); simpl; now rewrite ?IH.
Qed.

End FetchOutcomes.

Section PollerLoop.
Context `{Library}.
Variable config : Consumer.Config.

(** The loop for [fuel] iterations, with the events of each. *)
Lemma while_true_poll_exact (fuel : nat) (w : world) :
  while_true (Consumer.poll_iteration config) fuel w =
    (Ok StillLooping, after w fuel (List.concat (poll_iterations config w fuel))).
Proof.
  revert w. induction fuel as [| n IH]; intros w.
  - simpl. now rewrite after_nil.
  - simpl. unfold bind at 1. rewrite poll_iteration_run, IH, after_after.
    now rewrite Nat.add_1_r.
Qed.

Lemma poll_iterations_length (fuel : nat) (w : world) :
  List.length (poll_iterations config w fuel) = fuel.
Proof.
  revert w. induction fuel as [| n IH]; intros w; simpl; [reflexivity |].
  now rewrite IH.
Qed.

(** The iteration numbered [k] is the one of the answer to the request
    numbered [k]. *)
Lemma poll_iterations_nth (fuel : nat) (w : world) (k : nat) :
  (k < fuel)%nat ->
  nth_error (poll_iterations config w fuel) k =
    Some (iteration_events config
            (upstream w (k + requests w) (Consumer.processorUrl config) "/process")).
Proof.
  revert w k. induction fuel as [| n IH]; intros w k Hk; [lia |].
  destruct k as [| k]; simpl; [reflexivity |].
  rewrite IH by lia. simpl. now rewrite Nat.add_succ_r.
Qed.

Lemma poll_iterations_shape (fuel : nat) (w : world) :
  Forall (iteration_shape config) (poll_iterations config w fuel).
Proof.
  revert w. induction fuel as [| n IH]; intros w; simpl; constructor.
  - apply iteration_events_shape.
  - apply IH.
Qed.

(** What an iteration logs is decided by the answer it got. *)
Lemma iteration_logs_outcome (res : Result) :
  outcome_logged res (iteration_events config res).
Proof.
  unfold outcome_logged. rewrite !printed_iteration.
  destruct (Consumer.is_ok res) eqn:Hok.
  - destruct (parse (Consumer.body_of res)) as [j |] eqn:Hparse.
    + destruct (fields_of j) as [fields |] eqn:Hfields.
      * rewrite (poll_report_object res j fields Hok Hparse Hfields).
        split; reflexivity.
      * rewrite (poll_report_not_indexable res j Hok Hparse Hfields).
        split; reflexivity.
    + rewrite (poll_report_malformed res Hok Hparse). split; reflexivity.
  - rewrite (poll_report_not_ok res Hok). split; reflexivity.
Qed.

(** C3. The background thread never leaves its loop: for every number of
    iterations and whatever the upstream answers, the thread is still
    looping after them.  Every iteration, successful or not, has ended
    exactly one log line, made one request, and finished by sleeping the
    configured interval before the next one starts; and the iteration
    numbered k has done exactly what the answer to the request numbered k
    calls for: a flush, the request, the line of the values on the output
    or the line of the error on the error stream, a flush and the sleep. *)
Theorem poller_never_exits (fuel : nat) (w : world) :
  exists iterations : list (list event),
    Consumer.consumptionThread config fuel w =
      (Ok StillLooping,
       after w fuel ([Flush Cout; Sleep 1] ++ List.concat iterations)) /\
    List.length iterations = fuel /\
    Forall (fun evs =>
              lines evs = 1%nat /\
              http_gets evs = [(Consumer.processorUrl config, "/process")] /\
              sleeps evs = [Consumer.pollIntervalSeconds config] /\
              exists front, evs = (front ++ [Sleep (Consumer.pollIntervalSeconds config)])%list)
           iterations /\
    forall k, (k < fuel)%nat ->
      exists evs report,
        nth_error iterations k = Some evs /\
        evs = ([Flush Cout; HttpGet (Consumer.processorUrl config) "/process"] ++
               report ++
               [Flush Cout; Sleep (Consumer.pollIntervalSeconds config)])%list /\
        outcome_logged
          (upstream w (k + requests w) (Consumer.processorUrl config) "/process") evs /\
        outcome_logged
          (upstream w (k + requests w) (Consumer.processorUrl config) "/process") report.
Proof.
  exists (poll_iterations config (after w 0 [Flush Cout; Sleep 1]) fuel).
  split; [| split; [| split]].
  - assert (Hprologue : forall k : M world progress,
              (flush Cout ;; sleep_for 1 ;; k) w = k (after w 0 [Flush Cout; Sleep 1])).
    { intros k. unfold_cpp. unfold after. simpl. now rewrite <- app_assoc. }
    unfold Consumer.consumptionThread.
    rewrite Hprologue, while_true_poll_exact, after_after. now rewrite Nat.add_0_r.
  - apply poll_iterations_length.
  - eapply Forall_impl; [| apply poll_iterations_shape].
    intros evs (Hl & Hg & Hs & _ & Hlast). auto.
  - intros k Hk.
    exists (iteration_events config
              (upstream w (k + requests w) (Consumer.processorUrl config) "/process")).
    exists (poll_report
              (upstream w (k + requests w) (Consumer.processorUrl config) "/process")).
    split; [| split; [| split]].
    + rewrite (poll_iterations_nth fuel _ k Hk). reflexivity.
    + reflexivity.
    + apply iteration_logs_outcome.
    + pose proof (iteration_logs_outcome
                    (upstream w (k + requests w) (Consumer.processorUrl config) "/process"))
        as Hlogged.
      unfold outcome_logged in *. rewrite !printed_iteration in Hlogged. exact Hlogged.
Qed.

End PollerLoop.

Section FetchTheorems.
Context `{Library}.
Variable config : Consumer.Config.

(** C2, where the code departs from it.  When the upstream answers 200
    with a body that is not JSON, the manual trigger has no [catch]: the
    handler is left by the [parse_error] with the status never set and
    the upstream's text already copied into the response, so what is
    served carries that text, which is not JSON, and no error object. *)
Theorem consume_malformed_body_unhandled (req : Request) (w : world) (r : Response) :
  method req = "GET" ->
  path req = "/consume" ->
  next_answer config w = Some r ->
  status r = 200 ->
  parse (body r) = None ->
  Consumer.consume_handler config req (w, fresh_response) =
    (Throw (parse_error (body r)),
     (after w 1 (manual_prologue config),
      mkResponse (-1) (body r) "application/json" [])) /\
  exists resp,
    fst (process_request (Consumer.routes config) req w) = Ok resp /\
    body resp = body r /\
    parse (body resp) = None.
Proof.
  intros Hmethod Hpath Hnext Hstatus Hparse.
  assert (Hok : Consumer.is_ok (next_answer config w) = true).
  { rewrite Hnext. simpl. now rewrite Hstatus. }
  assert (Hbody : Consumer.body_of (next_answer config w) = body r)
    by now rewrite Hnext.
  pose proof (consume_handler_throws config req w Hok) as Hthrow.
  rewrite Hbody in Hthrow. specialize (Hthrow Hparse).
  split; [exact Hthrow |].
  unfold process_request. rewrite Hmethod, Hpath. simpl.
  replace (Consumer.consume_handler config req (w, fresh_response))
    with (Throw (A := unit) (parse_error (body r)),
          (after w 1 (manual_prologue config),
           mkResponse (-1) (body r) "application/json" [])).
  simpl. eexists. split; [reflexivity |]. simpl. auto.
Qed.

(** C4 as amended.  On both paths an unreachable upstream or a status
    other than 200 is a failure with a fixed reason.  On the poller's path
    a 200 whose body is not JSON, or is a JSON value that is neither an
    object nor null, is a failure whose reason is the exception's text.
    A 200 whose body is an object (or null) is a success on both paths,
    whichever fields it has: an absent field is logged as null and the
    body is relayed as it came. *)
Theorem fetch_outcomes (req : Request) (w : world) :
  method req = "GET" ->
  path req = "/consume" ->
  exists evs,
    Consumer.poll_iteration config w = (Ok tt, after w 1 evs) /\
    match next_answer config w with
    | Some r =>
        if status r =? 200 then
          match parse (body r) with
          | Some j =>
              match fields_of j with
              | Some fields =>
                  poller_success evs /\
                  printed Cout evs =
                    "[CONSUME] Original: " ++ dump (field_or_null "original" fields) ++
                    ", Processed: " ++ dump (field_or_null "processed" fields) ++ newline /\
                  fst (process_request (Consumer.routes config) req w) =
                    Ok (mkResponse 200 (body r) "application/json" [])
              | None =>
                  poller_failure evs /\
                  printed Cerr evs =
                    "[ERROR] Consumption error: " ++ what (type_error 305 j) ++ newline
              end
          | None =>
              poller_failure evs /\
              printed Cerr evs =
                "[ERROR] Consumption error: " ++ what (parse_error (body r)) ++ newline
          end
        else
          poller_failure evs /\
          printed Cerr evs = "[ERROR] Failed to call Processor service" ++ newline /\
          exists resp,
            fst (process_request (Consumer.routes config) req w) = Ok resp /\
            handler_failure resp /\
            body resp = dump (obj_of [("error", JString "Failed to call Processor service")])
    | None =>
        poller_failure evs /\
        printed Cerr evs = "[ERROR] Failed to call Processor service" ++ newline /\
        exists resp,
          fst (process_request (Consumer.routes config) req w) = Ok resp /\
          handler_failure resp /\
          body resp = dump (obj_of [("error", JString "Failed to call Processor service")])
    end.
Proof.
  intros Hmethod Hpath.
  exists (iteration_events config (next_answer config w)).
  split; [apply poll_iteration_run |].
  assert (Hfail : Consumer.is_ok (next_answer config w) = false ->
    poller_failure (iteration_events config (next_answer config w)) /\
    printed Cerr (iteration_events config (next_answer config w)) =
      "[ERROR] Failed to call Processor service" ++ newline /\
    exists resp,
      fst (process_request (Consumer.routes config) req w) = Ok resp /\
      handler_failure resp /\
      body resp = dump (obj_of [("error", JString "Failed to call Processor service")])).
  { intros Hok. split; [| split].
    - unfold poller_failure, iteration_events.
      rewrite (poll_report_not_ok _ Hok). split.
      + simpl. intuition discriminate.
      + exists "[ERROR] Failed to call Processor service". split; [discriminate | reflexivity].
    - rewrite printed_iteration, (poll_report_not_ok _ Hok). reflexivity.
    - rewrite (consume_reports_failure config req w Hmethod Hpath Hok). simpl.
      eexists. split; [reflexivity |]. split; [| reflexivity].
      split; [reflexivity |].
      exists "Failed to call Processor service". split; [discriminate | reflexivity]. }
  destruct (next_answer config w) as [r |] eqn:Hnext; [| apply Hfail; reflexivity].
  destruct (status r =? 200) eqn:Hstatus; [| apply Hfail; simpl; exact Hstatus].
  assert (Hok : Consumer.is_ok (Some r) = true) by exact Hstatus.
  destruct (parse (body r)) as [j |] eqn:Hparse.
  - destruct (fields_of j) as [fields |] eqn:Hfields.
    + pose proof (poll_report_object (Some r) j fields Hok Hparse Hfields) as Hrep.
      split; [| split].
      * unfold poller_success. rewrite !printed_iteration, Hrep. split; [reflexivity |].
        eexists. eexists. reflexivity.
      * rewrite printed_iteration, Hrep. reflexivity.
      * apply (consume_relays_object config req w r j); auto.
        -- apply Z.eqb_eq. exact Hstatus.
        -- destruct j; try discriminate; [left; reflexivity | right; eexists; reflexivity].
    + pose proof (poll_report_not_indexable (Some r) j Hok Hparse Hfields) as Hrep.
      split.
      * unfold poller_failure, iteration_events. rewrite Hrep. split.
        -- simpl. intuition discriminate.
        -- exists ("[ERROR] Consumption error: " ++ what (type_error 305 j)).
           split; [discriminate |]. simpl. reflexivity.
      * rewrite printed_iteration, Hrep. reflexivity.
  - pose proof (poll_report_malformed (Some r) Hok Hparse) as Hrep.
    split.
    + unfold poller_failure, iteration_events. rewrite Hrep. split.
      * simpl. intuition discriminate.
      * exists ("[ERROR] Consumption error: " ++ what (parse_error (body r))).
        split; [discriminate |]. simpl. reflexivity.
    + rewrite printed_iteration, Hrep. reflexivity.
Qed.

End FetchTheorems.


(* ===================================================================== *)
(** * Producer and processor *)
(* ===================================================================== *)

Lemma wrap_int_small (z : Z) : int_min <= z <= int_max -> wrap_int z = z.
Proof.
  unfold wrap_int, int_min, int_max. intros Hz.
  change (2 ^ 31) with 2147483648 in *. change (2 ^ 32) with 4294967296.
  rewrite Z.mod_small; lia.
Qed.

Section ProducerTheorems.
Context `{Library}.

Lemma next_value_range (w : world) : 1 <= next_value w <= 100.
Proof. unfold next_value. apply uniform_int_range. lia. Qed.

(** C10. Every [GET /data] is answered with status 200 and the object
    whose only field, value, is an integer between 1 and 100; this holds
    of the producer and of its earlier revision. *)
Theorem data_value_in_range (req : Request) (w : world) :
  method req = "GET" ->
  path req = "/data" ->
  exists v,
    1 <= v <= 100 /\
    fst (process_request Producer.routes req w) =
      Ok (mkResponse 200 (dump (obj_of [("value", JInt v)])) "application/json" []) /\
    fst (process_request ProducerFixedPort.routes req w) =
      Ok (mkResponse 200 (dump (obj_of [("value", JInt v)])) "application/json" []).
Proof.
  intros Hmethod Hpath.
  exists (next_value w). split; [apply next_value_range |].
  unfold process_request. rewrite Hmethod, Hpath. simpl. split; reflexivity.
Qed.

End ProducerTheorems.

Section ProcessorTheorems.
Context `{Library}.
Variable settings : Processor.Settings.

(** C7. When the producer answers 200 with the object value = v, for an
    integer v whose double is an [int] (as every value of the producer is),
    [GET /process] is answered with status 200 and the object with
    original = v and processed = 2 * v. *)
Theorem process_doubles (req : Request) (w : world) (r : Response) (v : Z) :
  method req = "GET" ->
  path req = "/process" ->
  producer_answer w = Some r ->
  status r = 200 ->
  parse (body r) = Some (obj_of [("value", JInt v)]) ->
  doubling_fits v ->
  fst (process_request (Processor.routes settings) req w) =
    Ok (mkResponse 200
          (dump (obj_of [("original", JInt v); ("processed", JInt (2 * v))]))
          "application/json" []).
Proof.
  intros Hmethod Hpath Hanswer Hstatus Hparse Hfits.
  assert (Hv : wrap_int v = v).
  { apply wrap_int_small. unfold doubling_fits, int_min, int_max in *.
    change (2 ^ 31) with 2147483648 in *. lia. }
  assert (Hdouble : wrap_int (v * 2) = 2 * v).
  { rewrite Z.mul_comm. apply wrap_int_small. exact Hfits. }
  unfold process_request. rewrite Hmethod, Hpath. simpl.
  unfold Processor.process_handler. unfold_cpp. simpl.
  unfold producer_answer in Hanswer. rewrite Hanswer. simpl.
  rewrite Hstatus. simpl. rewrite Hparse. simpl.
  rewrite Hv, Hdouble. reflexivity.
Qed.

(** Every value of the producer can be doubled exactly. *)
Lemma producer_values_fit (w : world) : doubling_fits (next_value w).
Proof.
  pose proof (next_value_range w) as Hrange.
  unfold doubling_fits, int_min, int_max.
  change (2 ^ 31) with 2147483648. lia.
Qed.

End ProcessorTheorems.

(* ===================================================================== *)
(** * Which targets a running service contacts *)
(* ===================================================================== *)

Section ProcessorTargets.
Context `{Library}.
Variable settings : Processor.Settings.

(** A request makes the processor contact the hardcoded producer once
    when it is routed, and nothing at all otherwise. *)
Lemma processor_request_events (req : Request) (w : world) :
  exists resp n evs,
    process_request (Processor.routes settings) req w = (Ok resp, after w n evs) /\
    n = (if routed_to "/process" req then 1 else 0)%nat /\
    http_gets evs = repeat producer_target n.
Proof.
  unfold process_request, routed_to, Processor.routes, find_route.
  destruct (String.eqb (method req) "GET" || String.eqb (method req) "HEAD")%bool;
    [destruct (String.eqb "/process" (path req)) |]; simpl.
  2, 3: exists (mkResponse 404 "" "" []), 0%nat, []; rewrite after_nil; repeat split.
  unfold Processor.process_handler. unfold_cpp. simpl.
  destruct (upstream w (requests w) "http://producer:8080" "/data") as [r |]; simpl.
  2: { close_events 1%nat. }
  destruct (status r =? 200); simpl.
  2: { close_events 1%nat. }
  destruct (parse (body r)) as [data |]; simpl.
  2: { close_events 1%nat. }
  destruct data as [| b | z | s | items | fields]; simpl; try close_events 1%nat.
  destruct (obj_find "value" fields) as [v |]; simpl; [| close_events 1%nat].
  destruct v as [| b | z | s | items | fields']; simpl; close_events 1%nat.
Qed.

Lemma processor_schedule_events (sched : list activity) (w : world) :
  exists resps evs,
    run_schedule (ret tt) (Processor.routes settings) sched w =
      (Ok resps, after w (count_routed "/process" sched) evs) /\
    http_gets evs = repeat producer_target (count_routed "/process" sched).
Proof.
  revert w. induction sched as [| a rest IH]; intros w.
  - exists [], []. simpl. rewrite after_nil. repeat split.
  - destruct a as [| req].
    + destruct (IH w) as (resps & evs & Hrun & Hgets).
      exists resps, evs. split; [| exact Hgets].
      simpl. unfold bind, ret. exact Hrun.
    + destruct (processor_request_events req w) as (resp & n & evs1 & Hreq & Hn & Hg1).
      destruct (IH (after w n evs1)) as (resps & evs2 & Hrun & Hg2).
      exists (resp :: resps), (evs1 ++ evs2)%list. split.
      * simpl. unfold bind at 1. rewrite Hreq. unfold bind at 1. rewrite Hrun.
        unfold ret. rewrite after_after. subst n.
        now rewrite (Nat.add_comm (count_routed "/process" rest)).
      * rewrite http_gets_app, Hg1, Hg2. subst n. simpl.
        now rewrite <- repeat_app.
Qed.

End ProcessorTargets.

Section ProcessorRuns.
Context `{Library}.

(** The outbound requests of a whole run of the processor. *)
Lemma processor_main_events (sched : list activity) (w : world) :
  exists evs,
    trace (snd (Processor.main sched w)) = (trace w ++ evs)%list /\
    http_gets evs =
      repeat producer_target
             (match stoi (env_or w "PORT" "8081") with
              | Ok _ => count_routed "/process" sched
              | Throw _ => 0
              end).
Proof.
  unfold Processor.main, Processor.read_settings, Processor.getEnv, env_or.
  step_startup.
  destruct (stoi (match environ w "PORT" with Some v => v | None => "8081" end))
    as [port | e].
  - rewrite bind_lift_ok. step_startup.
    match goal with
    | |- context [run_schedule _ (Processor.routes ?s) _ ?W] =>
        destruct (processor_schedule_events s sched W) as (resps & evs & Hrun & Hgets)
    end.
    rewrite Hrun. repeat rewrite after_after. cbn [snd trace after].
    eexists. split; [reflexivity |].
    repeat rewrite http_gets_app. rewrite Hgets. reflexivity.
  - rewrite bind_lift_throw. repeat rewrite after_after. cbn [snd trace after].
    eexists. split; [reflexivity |]. reflexivity.
Qed.

(** C9. The processor sends its outbound requests to the hardcoded
    [http://producer:8080] and to nothing else: every request routed to
    [/process] makes the handler send exactly one GET for [/data] there,
    so a run that starts makes one such request per routed request of its
    schedule; two runs that differ only in the configured PRODUCER_HOST and
    PRODUCER_PORT make the same outbound requests, all of them to that
    target, and the routes registered do not depend on what was
    configured. *)
Theorem processor_target_fixed (sched : list activity) (w : world)
  (env' : string -> option string) :
  (forall name, name <> "PRODUCER_HOST" -> name <> "PRODUCER_PORT" ->
                env' name = environ w name) ->
  (exists evs evs',
     trace (snd (Processor.main sched w)) = (trace w ++ evs)%list /\
     trace (snd (Processor.main sched (with_environ env' w))) = (trace w ++ evs')%list /\
     http_gets evs = http_gets evs' /\
     Forall (fun target => target = ("http://producer:8080", "/data")) (http_gets evs) /\
     http_gets evs =
       repeat ("http://producer:8080", "/data")
              (match stoi (env_or w "PORT" "8081") with
               | Ok _ => count_routed "/process" sched
               | Throw _ => 0
               end)) /\
  (forall (settings : Processor.Settings) (req : Request) (w0 : world),
     routed_to "/process" req = true ->
     exists resp evs,
       process_request (Processor.routes settings) req w0 = (Ok resp, after w0 1 evs) /\
       http_gets evs = [("http://producer:8080", "/data")]) /\
  (forall s1 s2 : Processor.Settings, Processor.routes s1 = Processor.routes s2).
Proof.
  intros Hagree. split; [| split; [| reflexivity]].
  - destruct (processor_main_events sched w) as (evs & Htrace & Hgets).
    destruct (processor_main_events sched (with_environ env' w))
      as (evs' & Htrace' & Hgets').
    exists evs, evs'. repeat split; try assumption.
    + rewrite Hgets, Hgets'. unfold env_or. simpl.
      rewrite (Hagree "PORT") by discriminate. reflexivity.
    + rewrite Hgets. apply Forall_forall. intros target Hin.
      apply repeat_spec in Hin. exact Hin.
  - intros settings req w0 Hrouted.
    destruct (processor_request_events settings req w0)
      as (resp & n & evs & Hreq & Hn & Hgets).
    rewrite Hrouted in Hn. subst n.
    exists resp, evs. split; assumption.
Qed.

End ProcessorRuns.

(* ===================================================================== *)
(** * The consumer's configuration over a whole run *)
(* ===================================================================== *)

Section ConsumerRuns.
Context `{Library}.

(** A request makes the consumer read no environment variable and contact
    nothing but the configured upstream. *)
Lemma consumer_request_events (config : Consumer.Config) (req : Request) (w : world) :
  exists resp n evs,
    process_request (Consumer.routes config) req w = (Ok resp, after w n evs) /\
    getenvs evs = [] /\
    http_gets evs = repeat (Consumer.processorUrl config, "/process") n.
Proof.
  unfold process_request, Consumer.routes, find_route.
  destruct (String.eqb (method req) "GET" || String.eqb (method req) "HEAD")%bool;
    [destruct (String.eqb "/consume" (path req));
       [| destruct (String.eqb "/health" (path req))] |]; simpl.
  3, 4: exists (mkResponse 404 "" "" []), 0%nat, []; rewrite after_nil; repeat split.
  2: { exists (mkResponse 200
                 (dump (JObject [("service", JString "consumer");
                                 ("status", JString "healthy")]))
                 "application/json" []), 0%nat, [].
       rewrite after_nil. repeat split. }
  unfold Consumer.consume_handler. unfold_cpp. simpl.
  destruct (upstream w (requests w) (Consumer.processorUrl config) "/process")
    as [r |]; simpl.
  2: { close_events 1%nat. }
  destruct (status r =? 200); simpl.
  2: { close_events 1%nat. }
  destruct (parse (body r)) as [data |]; simpl.
  2: { close_events 1%nat. }
  destruct data as [| b | z | s | items | fields]; simpl; try close_events 1%nat.
  destruct (obj_find "original" fields); simpl;
    match goal with
    | |- context [obj_find "processed" ?l] => destruct (obj_find "processed" l)
    end; close_events 1%nat.
Qed.

(** The same of any schedule of iterations and requests. *)
Lemma consumer_schedule_events (config : Consumer.Config) (sched : list activity)
  (w : world) :
  exists resps n evs,
    run_schedule (Consumer.poll_iteration config) (Consumer.routes config) sched w =
      (Ok resps, after w n evs) /\
    getenvs evs = [] /\
    http_gets evs = repeat (Consumer.processorUrl config, "/process") n.
Proof.
  revert w. induction sched as [| a rest IH]; intros w.
  - exists [], 0%nat, []. simpl. rewrite after_nil. repeat split.
  - destruct a as [| req].
    + destruct (iteration_events_shape config (next_answer config w))
        as (_ & Hg1 & _ & He1 & _).
      destruct (IH (after w 1 (iteration_events config (next_answer config w))))
        as (resps & n & evs2 & Hrun & He2 & Hg2).
      exists resps, (n + 1)%nat,
        (iteration_events config (next_answer config w) ++ evs2)%list.
      split; [| split].
      * simpl. unfold bind at 1. rewrite poll_iteration_run, Hrun.
        now rewrite after_after.
      * now rewrite getenvs_app, He1, He2.
      * rewrite http_gets_app, Hg1, Hg2, Nat.add_comm. reflexivity.
    + destruct (consumer_request_events config req w)
        as (resp & n1 & evs1 & Hreq & He1 & Hg1).
      destruct (IH (after w n1 evs1)) as (resps & n2 & evs2 & Hrun & He2 & Hg2).
      exists (resp :: resps), (n2 + n1)%nat, (evs1 ++ evs2)%list.
      split; [| split].
      * simpl. unfold bind at 1. rewrite Hreq. unfold bind at 1. rewrite Hrun.
        unfold ret. now rewrite after_after.
      * now rewrite getenvs_app, He1, He2.
      * rewrite http_gets_app, Hg1, Hg2, Nat.add_comm. now rewrite repeat_app.
Qed.

(** C8. The configuration is built once, when the process starts: with a
    numeric port and poll interval, [loadConfig] yields the record whose
    upstream URL is http:// followed by the host, a colon and the port;
    over a whole run, whatever the schedule, the environment is read for
    the four variables only, once each, and every outbound request of the
    poller and of the manual trigger goes to that URL, both having been
    given that one record. *)
Theorem configuration_built_once (sched : list activity) (w : world) (p i : Z) :
  stoi (env_or w "PORT" "8082") = Ok p ->
  stoi (env_or w "POLL_INTERVAL_SECONDS" "5") = Ok i ->
  let host := env_or w "PROCESSOR_HOST" "processor" in
  let port := env_or w "PROCESSOR_PORT" "8081" in
  let config := Consumer.mkConfig p host port i ("http://" ++ host ++ ":" ++ port) in
  fst (Consumer.loadConfig w) = Ok config /\
  exists resps w' evs n w1,
    Consumer.main sched w = (Ok resps, w') /\
    Consumer.main sched w =
      run_schedule (Consumer.poll_iteration config) (Consumer.routes config) sched w1 /\
    trace w' = (trace w ++ evs)%list /\
    environ w' = environ w /\
    getenvs evs = ["PORT"; "PROCESSOR_HOST"; "PROCESSOR_PORT"; "POLL_INTERVAL_SECONDS"] /\
    http_gets evs = repeat ("http://" ++ host ++ ":" ++ port, "/process") n.
Proof.
  intros Hp Hi host port config. subst config host port.
  unfold env_or in *.
  split.
  { unfold Consumer.loadConfig, Consumer.getEnv.
    step_startup. rewrite Hp, bind_lift_ok.
    step_startup. rewrite Hi, bind_lift_ok. reflexivity. }
  unfold Consumer.main, Consumer.loadConfig, Consumer.getEnv.
  step_startup. rewrite Hp, bind_lift_ok.
  step_startup. rewrite Hi, bind_lift_ok.
  step_startup.
  match goal with
  | |- context [run_schedule (Consumer.poll_iteration ?c) _ _ ?W] =>
      destruct (consumer_schedule_events c sched W)
        as (resps & n & evs & Hrun & Henv & Hgets);
      exists resps, (after W n evs); eexists; exists n, W
  end.
  split; [exact Hrun |]. split; [reflexivity |].
  repeat rewrite after_after. cbn [trace environ after].
  split; [reflexivity |]. split; [reflexivity |].
  split.
  - repeat rewrite getenvs_app. rewrite Henv. reflexivity.
  - repeat rewrite http_gets_app. rewrite Hgets. reflexivity.
Qed.

End ConsumerRuns.

(* ===================================================================== *)
(** * Startup, error paths and whole runs *)
(* ===================================================================== *)

(** [read_digits] on the text of a decimal number, from an accumulator. *)
Lemma read_digits_acc (d : Decimal.uint) (acc : positive) (count : nat) :
  read_digits (NilEmpty.string_of_uint d) (Z.pos acc) count =
    (Z.pos (Pos.of_uint_acc d acc), (count + Decimal.nb_digits d)%nat).
Proof.
  revert acc count.
  induction d; intros acc count;
    cbn [NilEmpty.string_of_uint read_digits Pos.of_uint_acc Decimal.nb_digits];
    [now rewrite Nat.add_0_r | ..].
  all: match goal with
       | |- context [digit_of ?c] =>
           let v := eval vm_compute in (digit_of c) in change (digit_of c) with v
       end; cbv iota beta.
  all: match goal with
       | |- read_digits _ ?a _ = (Z.pos (Pos.of_uint_acc _ ?b), _) =>
           replace a with (Z.pos b) by lia
       end.
  all: rewrite IHd; f_equal; lia.
Qed.

(** [read_digits] on the text of a decimal number. *)
Lemma read_digits_uint (d : Decimal.uint) (count : nat) :
  read_digits (NilEmpty.string_of_uint d) 0 count =
    (Z.of_N (Pos.of_uint d), (count + Decimal.nb_digits d)%nat).
Proof.
  revert count.
  induction d; intros count; simpl NilEmpty.string_of_uint;
    cbn [read_digits Pos.of_uint Decimal.nb_digits];
    try (now rewrite Nat.add_0_r).
  all: match goal with
       | |- context [digit_of ?c] =>
           let v := eval vm_compute in (digit_of c) in change (digit_of c) with v
       end; cbv iota beta.
  1: { change (10 * 0 + 0) with 0. rewrite IHd. f_equal. lia. }
  all: match goal with
       | |- read_digits _ ?a _ = _ => let v := eval vm_compute in a in change a with v
       end;
       rewrite read_digits_acc; f_equal; lia.
Qed.

(** The text of a decimal number starts with neither a space nor a sign. *)
Lemma string_of_uint_head (d : Decimal.uint) :
  d <> Decimal.Nil ->
  exists c rest, NilEmpty.string_of_uint d = String c rest /\
                 is_space c = false /\ c <> "-"%char /\ c <> "+"%char.
Proof.
  intros Hd. destruct d; try congruence; simpl;
    eexists; eexists; (split; [reflexivity |]); repeat split; discriminate.
Qed.

(** [std::stoi] reads a decimal number that fits an [int]. *)
Lemma stoi_digits (d : Decimal.uint) :
  d <> Decimal.Nil ->
  Z.of_N (Pos.of_uint d) <= int_max ->
  stoi (NilEmpty.string_of_uint d) = Ok (Z.of_N (Pos.of_uint d)).
Proof.
  intros Hd Hmax.
  destruct (string_of_uint_head d Hd) as (c & rest & Hs & Hsp & Hm & Hp).
  unfold stoi.
  assert (Hskip : skip_spaces (NilEmpty.string_of_uint d) = NilEmpty.string_of_uint d).
  { rewrite Hs. simpl. now rewrite Hsp. }
  rewrite Hskip.
  assert (Hsign : (match NilEmpty.string_of_uint d with
           | String "-"%char r => (true, r)
           | String "+"%char r => (false, r)
           | _ => (false, NilEmpty.string_of_uint d)
           end) = (false, NilEmpty.string_of_uint d)).
  { rewrite Hs. destruct c as [[] [] [] [] [] [] [] []]; try reflexivity; congruence. }
  rewrite Hsign. rewrite read_digits_uint.
  assert (Hr : ((int_min <=? Z.of_N (Pos.of_uint d)) &&
                (Z.of_N (Pos.of_uint d) <=? int_max))%bool = true).
  { apply andb_true_iff. split; apply Z.leb_le; [unfold int_min; lia | exact Hmax]. }
  assert (Hn : exists n, (0 + Decimal.nb_digits d)%nat = S n).
  { destruct d; try congruence; simpl; eexists; reflexivity. }
  destruct Hn as [n Hn]. rewrite Hn, Hr. reflexivity.
Qed.

(** The same behind a minus sign. *)
Lemma stoi_minus_digits (d : Decimal.uint) :
  d <> Decimal.Nil ->
  int_min <= - Z.of_N (Pos.of_uint d) ->
  stoi (String "-" (NilEmpty.string_of_uint d)) = Ok (- Z.of_N (Pos.of_uint d)).
Proof.
  intros Hd Hmin.
  unfold stoi. cbn [skip_spaces].
  change (is_space "-") with false. cbv iota.
  rewrite read_digits_uint.
  assert (Hr : ((int_min <=? - Z.of_N (Pos.of_uint d)) &&
                (- Z.of_N (Pos.of_uint d) <=? int_max))%bool = true).
  { apply andb_true_iff. split; apply Z.leb_le; [exact Hmin | unfold int_max; lia]. }
  assert (Hn : exists n, (0 + Decimal.nb_digits d)%nat = S n).
  { destruct d; try congruence; simpl; eexists; reflexivity. }
  destruct Hn as [n Hn]. rewrite Hn, Hr. reflexivity.
Qed.

(** [std::stoi] reads back what [operator<<] prints of an [int]. *)
Lemma stoi_string_of_Z (z : Z) :
  int_min <= z <= int_max -> stoi (string_of_Z z) = Ok z.
Proof.
  intros [Hmin Hmax]. unfold string_of_Z.
  destruct z as [| p | p]; [reflexivity | |];
    simpl Z.to_int; unfold NilZero.string_of_int, NilZero.string_of_uint;
    pose proof (DecimalPos.Unsigned.to_uint_nonnil p) as Hnil;
    pose proof (DecimalPos.Unsigned.of_to p) as Hof;
    destruct (Pos.to_uint p) eqn:Hd; try congruence; rewrite <- Hd in *.
  all: first [ rewrite stoi_digits | rewrite stoi_minus_digits ];
    rewrite ?Hof; try reflexivity; auto.
Qed.

Section ConsumerStartup.
Context `{Library}.

(** [loadConfig] in full: which variables it reads before it returns or
    throws. *)
Lemma loadConfig_run (w : world) :
  Consumer.loadConfig w =
    match stoi (env_or w "PORT" "8082") with
    | Throw e => (Throw e, after w 0 [Getenv "PORT"])
    | Ok p =>
        match stoi (env_or w "POLL_INTERVAL_SECONDS" "5") with
        | Throw e => (Throw e, after w 0 startup_reads)
        | Ok i => (Ok (config_of w p i), after w 0 startup_reads)
        end
    end.
Proof.
  unfold Consumer.loadConfig, Consumer.getEnv, env_or, config_of, startup_reads.
  step_startup.
  destruct (stoi (match environ w "PORT" with Some v => v | None => "8082" end))
    as [p | e].
  - rewrite bind_lift_ok. step_startup.
    destruct (stoi (match environ w "POLL_INTERVAL_SECONDS" with
                    | Some v => v | None => "5" end)) as [i | e].
    + rewrite bind_lift_ok. unfold ret. repeat rewrite after_after. reflexivity.
    + rewrite bind_lift_throw. repeat rewrite after_after. reflexivity.
  - rewrite bind_lift_throw. reflexivity.
Qed.

(** X1. With PORT and POLL_INTERVAL_SECONDS unset, [loadConfig] cannot
    fail: the port is 8082 and the poll interval 5, whatever the other two
    variables hold. *)
Theorem loadConfig_defaults (w : world) :
  environ w "PORT" = None ->
  environ w "POLL_INTERVAL_SECONDS" = None ->
  fst (Consumer.loadConfig w) = Ok (config_of w 8082 5).
Proof.
  intros Hport Hpoll. rewrite loadConfig_run. unfold env_or at 1 2.
  rewrite Hport, Hpoll. reflexivity.
Qed.

(** X2. [loadConfig] checks no range: for any two [int]s, an environment
    that holds their decimal texts in PORT and POLL_INTERVAL_SECONDS gives
    the configuration with exactly that port and that interval, be they
    zero, negative or beyond 65535. *)
Theorem loadConfig_reads_back (w : world) (p i : Z) :
  int_min <= p <= int_max ->
  int_min <= i <= int_max ->
  environ w "PORT" = Some (string_of_Z p) ->
  environ w "POLL_INTERVAL_SECONDS" = Some (string_of_Z i) ->
  fst (Consumer.loadConfig w) = Ok (config_of w p i).
Proof.
  intros Hp Hi Hport Hpoll. rewrite loadConfig_run. unfold env_or at 1 2.
  rewrite Hport, Hpoll, (stoi_string_of_Z p Hp), (stoi_string_of_Z i Hi). reflexivity.
Qed.

(** X3. When [loadConfig] throws, [main] ends with that exception right
    after its first line: the thread is never started and the server never
    listens, so nothing is requested, nothing sleeps, and the only output
    is the starting line. *)
Theorem consumer_startup_aborts (sched : list activity) (w : world) (e : exn) :
  fst (Consumer.loadConfig w) = Throw e ->
  exists evs,
    Consumer.main sched w = (Throw e, after w 0 evs) /\
    http_gets evs = [] /\
    sleeps evs = [] /\
    printed Cout evs = "Consumer starting..." ++ newline.
Proof.
  intros Hload. rewrite loadConfig_run in Hload.
  unfold Consumer.main. step_startup.
  unfold bind at 1. rewrite loadConfig_run.
  unfold env_or in *. repeat rewrite environ_after.
  destruct (stoi (match environ w "PORT" with Some v => v | None => "8082" end))
    as [p | e1].
  - destruct (stoi (match environ w "POLL_INTERVAL_SECONDS" with
                    | Some v => v | None => "5" end)) as [i | e2];
      [discriminate |].
    injection Hload as ->. repeat rewrite after_after.
    eexists. split; [reflexivity |]. repeat split.
  - injection Hload as ->. repeat rewrite after_after.
    eexists. split; [reflexivity |]. repeat split.
Qed.

End ConsumerStartup.

Section ConsumerMore.
Context `{Library}.
Variable config : Consumer.Config.

(** X4. The manual trigger on a 200 whose body is JSON but neither an
    object nor null: [data["original"]] throws [type_error] 305 out of the
    handler, after the body was copied into the response and the start of
    the log line was written. *)
Theorem consume_non_object_unhandled (req : Request) (w : world) (r : Response) (j : json) :
  next_answer config w = Some r ->
  status r = 200 ->
  parse (body r) = Some j ->
  fields_of j = None ->
  Consumer.consume_handler config req (w, fresh_response) =
    (Throw (type_error 305 j),
     (after w 1 (manual_prologue config ++ [Print Cout "[MANUAL] Original: "]),
      mkResponse (-1) (body r) "application/json" [])).
Proof.
  intros Hnext Hstatus Hparse Hfields.
  unfold Consumer.consume_handler. unfold_cpp. simpl.
  unfold next_answer in Hnext. rewrite Hnext. simpl. rewrite Hstatus. simpl.
  rewrite Hparse. simpl.
  unfold after, manual_prologue. simpl.
  destruct j; try discriminate; simpl; repeat rewrite <- app_assoc; reflexivity.
Qed.

(** X5. Serving a request never writes to the error stream; when the
    fetch of a manual trigger fails, all that is logged is the line that
    the endpoint was called. *)
Theorem manual_trigger_never_writes_stderr (req : Request) (w : world) :
  exists resp n evs,
    process_request (Consumer.routes config) req w = (Ok resp, after w n evs) /\
    printed Cerr evs = EmptyString /\
    (routed_to "/consume" req = true ->
     Consumer.is_ok (next_answer config w) = false ->
     printed Cout evs = "[MANUAL] Consume endpoint called" ++ newline).
Proof.
  unfold process_request, routed_to, Consumer.routes, find_route, next_answer.
  destruct (String.eqb (method req) "GET" || String.eqb (method req) "HEAD")%bool;
    [destruct (String.eqb "/consume" (path req));
       [| destruct (String.eqb "/health" (path req))] |]; simpl.
  2, 3, 4: eexists; exists 0%nat, []; rewrite after_nil;
    (split; [reflexivity | split; [reflexivity | discriminate]]).
  unfold Consumer.consume_handler. unfold_cpp. simpl.
  destruct (upstream w (requests w) (Consumer.processorUrl config) "/process")
    as [r |]; simpl.
  2: { close_silent. }
  destruct (status r =? 200); simpl.
  2: { close_silent. }
  destruct (parse (body r)) as [data |]; simpl.
  2: { close_silent. }
  destruct data as [| b | z | s | items | fields]; simpl; try close_silent.
  destruct (obj_find "original" fields); simpl;
    match goal with
    | |- context [obj_find "processed" ?l] => destruct (obj_find "processed" l)
    end; close_silent.
Qed.

(** The outbound requests of one request to the consumer, counted. *)
Lemma consumer_request_exact (req : Request) (w : world) :
  exists resp evs,
    process_request (Consumer.routes config) req w =
      (Ok resp, after w (if routed_to "/consume" req then 1 else 0) evs) /\
    sleeps evs = [] /\
    http_gets evs =
      repeat (Consumer.processorUrl config, "/process")
             (if routed_to "/consume" req then 1 else 0).
Proof.
  unfold process_request, routed_to, Consumer.routes, find_route.
  destruct (String.eqb (method req) "GET" || String.eqb (method req) "HEAD")%bool;
    [destruct (String.eqb "/consume" (path req));
       [| destruct (String.eqb "/health" (path req))] |]; simpl.
  3, 4: exists (mkResponse 404 "" "" []), []; rewrite after_nil; repeat split.
  2: { eexists. exists []. rewrite after_nil. repeat split. }
  unfold Consumer.consume_handler. unfold_cpp. simpl.
  destruct (upstream w (requests w) (Consumer.processorUrl config) "/process")
    as [r |]; simpl.
  2: { close_exact. }
  destruct (status r =? 200); simpl.
  2: { close_exact. }
  destruct (parse (body r)) as [data |]; simpl.
  2: { close_exact. }
  destruct data as [| b | z | s | items | fields]; simpl; try close_exact.
  destruct (obj_find "original" fields); simpl;
    match goal with
    | |- context [obj_find "processed" ?l] => destruct (obj_find "processed" l)
    end; close_exact.
Qed.

(** X6. Over any schedule the consumer answers every request, makes
    exactly one outbound request per iteration of the poller and per
    manual trigger (none is repeated), and sleeps the configured interval
    once per iteration, after failures as after successes. *)
Theorem consumer_run_accounting (sched : list activity) (w : world) :
  exists resps evs,
    run_schedule (Consumer.poll_iteration config) (Consumer.routes config) sched w =
      (Ok resps,
       after w (count_polls sched + count_routed "/consume" sched) evs) /\
    List.length resps = count_incoming sched /\
    sleeps evs = repeat (Consumer.pollIntervalSeconds config) (count_polls sched) /\
    http_gets evs =
      repeat (Consumer.processorUrl config, "/process")
             (count_polls sched + count_routed "/consume" sched).
Proof.
  revert w. induction sched as [| a rest IH]; intros w.
  - exists [], []. simpl. rewrite after_nil. repeat split.
  - destruct a as [| req].
    + destruct (iteration_events_shape config (next_answer config w))
        as (_ & Hg1 & Hs1 & _ & _).
      destruct (IH (after w 1 (iteration_events config (next_answer config w))))
        as (resps & evs2 & Hrun & Hlen & Hs2 & Hg2).
      exists resps, (iteration_events config (next_answer config w) ++ evs2)%list.
      split; [| split; [| split]].
      * simpl. unfold bind at 1. rewrite poll_iteration_run, Hrun, after_after.
        rewrite Nat.add_1_r. reflexivity.
      * exact Hlen.
      * rewrite sleeps_app, Hs1, Hs2. reflexivity.
      * rewrite http_gets_app, Hg1, Hg2. reflexivity.
    + destruct (consumer_request_exact req w) as (resp & evs1 & Hreq & Hs1 & Hg1).
      destruct (IH (after w (if routed_to "/consume" req then 1 else 0) evs1))
        as (resps & evs2 & Hrun & Hlen & Hs2 & Hg2).
      exists (resp :: resps), (evs1 ++ evs2)%list.
      split; [| split; [| split]].
      * simpl. unfold bind at 1. rewrite Hreq. unfold bind at 1. rewrite Hrun.
        unfold ret. rewrite after_after.
        match goal with
        | |- (_, after _ ?a _) = (_, after _ ?b _) => replace a with b by lia
        end.
        reflexivity.
      * simpl. now rewrite Hlen.
      * rewrite sleeps_app, Hs1, Hs2. reflexivity.
      * rewrite http_gets_app, Hg1, Hg2, <- repeat_app. f_equal. simpl. lia.
Qed.

End ConsumerMore.

Section ProcessorMore.
Context `{Library}.
Variable settings : Processor.Settings.

(** X7. When the producer cannot be reached or answers with another
    status than 200, [GET /process] is answered with status 500 and the
    error object, after one request and one line on the error stream. *)
Theorem process_reports_failure (req : Request) (w : world) :
  method req = "GET" ->
  path req = "/process" ->
  Processor.is_ok (producer_answer w) = false ->
  process_request (Processor.routes settings) req w =
    (Ok (mkResponse 500
           (dump (obj_of [("error", JString "Failed to call Producer service")]))
           "application/json" []),
     after w 1 (producer_request ++
                [Print Cerr "Error: Could not reach Producer"; Endl Cerr])).
Proof.
  intros Hmethod Hpath Hok.
  unfold process_request. rewrite Hmethod, Hpath. simpl.
  unfold Processor.process_handler. unfold_cpp. simpl.
  unfold producer_answer in Hok. rewrite Hok. simpl.
  unfold after. simpl. repeat rewrite <- app_assoc. reflexivity.
Qed.

(** X8. When the producer answers 200 with an object whose value field is
    an integer z, whatever other fields it has, [GET /process] reports as
    original the [int] that z converts to and, when its double is an
    [int], that double as processed; the line logged carries the same two
    numbers. *)
Theorem process_casts_and_doubles (req : Request) (w : world) (r : Response)
  (fields : list (string * json)) (z : Z) :
  method req = "GET" ->
  path req = "/process" ->
  producer_answer w = Some r ->
  status r = 200 ->
  parse (body r) = Some (JObject fields) ->
  obj_find "value" fields = Some (JInt z) ->
  doubling_fits (wrap_int z) ->
  process_request (Processor.routes settings) req w =
    (Ok (mkResponse 200
           (dump (obj_of [("original", JInt (wrap_int z));
                          ("processed", JInt (2 * wrap_int z))]))
           "application/json" []),
     after w 1 (producer_request ++
                [Print Cout "Recieved: "; Print Cout (string_of_Z (wrap_int z));
                 Print Cout ", Processed: "; Print Cout (string_of_Z (2 * wrap_int z));
                 Endl Cout])).
Proof.
  intros Hmethod Hpath Hanswer Hstatus Hparse Hvalue Hfits.
  assert (Hdouble : wrap_int (wrap_int z * 2) = 2 * wrap_int z).
  { rewrite Z.mul_comm. apply wrap_int_small. exact Hfits. }
  unfold process_request. rewrite Hmethod, Hpath. simpl.
  unfold Processor.process_handler. unfold_cpp. simpl.
  unfold producer_answer in Hanswer. rewrite Hanswer. simpl.
  rewrite Hstatus. simpl. rewrite Hparse. simpl. rewrite Hvalue. simpl.
  rewrite Hdouble. unfold after. simpl. repeat rewrite <- app_assoc. reflexivity.
Qed.

(** X9. Whenever the [/process] handler is left by an exception, it has
    made its one request and nothing else: the response object is as the
    server handed it over and nothing was logged. *)
Theorem process_handler_all_or_nothing (req : Request) (w : world) (e : exn) :
  fst (Processor.process_handler req (w, fresh_response)) = Throw e ->
  snd (Processor.process_handler req (w, fresh_response)) =
    (after w 1 producer_request, fresh_response).
Proof.
  unfold Processor.process_handler. unfold_cpp. simpl.
  destruct (upstream w (requests w) "http://producer:8080" "/data") as [r |]; simpl;
    [| discriminate].
  destruct (status r =? 200); simpl; [| discriminate].
  destruct (parse (body r)) as [data |]; simpl; [| reflexivity].
  destruct data as [| b | z | s | items | fields]; simpl; try reflexivity.
  destruct (obj_find "value" fields) as [v |]; simpl; [| reflexivity].
  destruct v as [| b | z | s | items | fields']; simpl;
    try discriminate; reflexivity.
Qed.

(** X10. A 200 from the producer whose body is an object (or null) with
    no value field makes the [/process] handler throw [type_error] 302:
    the null that [operator[]] inserts does not convert to [int]. *)
Theorem process_rejects_missing_value (req : Request) (w : world) (r : Response)
  (j : json) (fields : list (string * json)) :
  producer_answer w = Some r ->
  status r = 200 ->
  parse (body r) = Some j ->
  fields_of j = Some fields ->
  obj_find "value" fields = None ->
  Processor.process_handler req (w, fresh_response) =
    (Throw (type_error 302 JNull), (after w 1 producer_request, fresh_response)).
Proof.
  intros Hanswer Hstatus Hparse Hfields Hvalue.
  unfold Processor.process_handler. unfold_cpp. simpl.
  unfold producer_answer in Hanswer. rewrite Hanswer. simpl.
  rewrite Hstatus. simpl. rewrite Hparse. simpl.
  destruct j; try discriminate; injection Hfields as <-; simpl;
    rewrite ?Hvalue; reflexivity.
Qed.

End ProcessorMore.

Lemma string_append_assoc (a b c : string) : (a ++ b) ++ c = a ++ b ++ c.
Proof. induction a as [| ch a IH]; simpl; [reflexivity | now rewrite IH]. Qed.

(** The text of two runs of events is the text of the first followed by
    the text of the second. *)
Lemma printed_app (s : ostream) (t1 t2 : list event) :
  printed s (t1 ++ t2) = printed s t1 ++ printed s t2.
Proof.
  induction t1 as [| e rest IH]; simpl; [reflexivity |].
  destruct e; try exact IH; destruct (same_stream s s0); try exact IH;
    rewrite IH, ?string_append_assoc; reflexivity.
Qed.

Lemma drawn_nil (w : world) : drawn w 0 [] = w.
Proof. destruct w; unfold drawn; simpl. now rewrite app_nil_r. Qed.

Lemma drawn_drawn (w : world) (n m : nat) (e1 e2 : list event) :
  drawn (drawn w n e1) m e2 = drawn w (m + n) (e1 ++ e2).
Proof. unfold drawn; simpl. now rewrite Nat.add_assoc, app_assoc. Qed.

Section ProducerMore.
Context `{Library}.

(** One request to the producer. *)
Lemma producer_request_run (req : Request) (w : world) :
  exists evs,
    process_request Producer.routes req w =
      (Ok (if routed_to "/data" req then data_response (next_value w) else not_found),
       drawn w (if routed_to "/data" req then 1 else 0) evs) /\
    http_gets evs = [] /\ getenvs evs = [] /\
    printed Cout evs =
      (if routed_to "/data" req
       then "Generated: " ++ string_of_Z (next_value w) ++ newline
       else EmptyString).
Proof.
  unfold process_request, routed_to, Producer.routes, find_route.
  destruct (String.eqb (method req) "GET" || String.eqb (method req) "HEAD")%bool;
    [destruct (String.eqb "/data" (path req)) |]; simpl.
  2, 3: exists []; rewrite drawn_nil; repeat split.
  unfold drawn. simpl. repeat rewrite <- app_assoc. simpl.
  eexists. split; [reflexivity |]. repeat split.
Qed.

(** A schedule of requests to the producer. *)
Lemma producer_schedule_run (sched : list activity) (w : world) :
  exists evs,
    run_schedule (ret tt) Producer.routes sched w =
      (Ok (data_responses (device w) (draws w) sched),
       drawn w (count_routed "/data" sched) evs) /\
    http_gets evs = [] /\ getenvs evs = [] /\
    printed Cout evs = data_log (device w) (draws w) sched.
Proof.
  revert w. induction sched as [| a rest IH]; intros w.
  - exists []. simpl. rewrite drawn_nil. repeat split.
  - destruct a as [| req].
    + destruct (IH w) as (evs & Hrun & Hg & He & Hp).
      exists evs. split; [| repeat split; assumption].
      simpl. unfold bind, ret. exact Hrun.
    + destruct (producer_request_run req w) as (evs1 & Hreq & Hg1 & He1 & Hp1).
      destruct (IH (drawn w (if routed_to "/data" req then 1 else 0) evs1))
        as (evs2 & Hrun & Hg2 & He2 & Hp2).
      exists (evs1 ++ evs2)%list. split; [| split; [| split]].
      * simpl run_schedule. unfold bind at 1. rewrite Hreq.
        unfold bind at 1. rewrite Hrun. unfold ret. rewrite drawn_drawn.
        simpl data_responses. simpl count_routed. unfold next_value.
        destruct (routed_to "/data" req); simpl;
          [rewrite Nat.add_1_r | rewrite Nat.add_0_r]; reflexivity.
      * now rewrite http_gets_app, Hg1, Hg2.
      * now rewrite getenvs_app, He1, He2.
      * rewrite printed_app, Hp1, Hp2. simpl data_log. unfold next_value.
        destruct (routed_to "/data" req);
          [rewrite !string_append_assoc |]; reflexivity.
Qed.



(** X13. The earlier revision of the producer never fails to start and
    reads nothing of the environment: in every world it answers a schedule
    with the values drawn from the random device in order.  The two
    revisions answer alike: whenever the later one starts, it gives the
    same responses to the same schedule. *)
Theorem producer_revisions_agree (sched : list activity) (w : world) :
  fst (ProducerFixedPort.main sched w) =
    Ok (data_responses (device w) (draws w) sched) /\
  (exists evs,
     trace (snd (ProducerFixedPort.main sched w)) = (trace w ++ evs)%list /\
     getenvs evs = []) /\
  (forall port,
     stoi (env_or w "PORT" "8080") = Ok port ->
     fst (Producer.main sched w) = fst (ProducerFixedPort.main sched w)).
Proof.
  assert (Hold : exists evs,
             ProducerFixedPort.main sched w =
               (Ok (data_responses (device w) (draws w) sched),
                drawn (after w 0 [Print Cout "Producer starting...:"; Endl Cout;
                                  Print Cout "Listening on http://localhost:8080";
                                  Endl Cout])
                      (count_routed "/data" sched) evs) /\
             getenvs evs = []).
  { unfold ProducerFixedPort.main. step_startup. repeat rewrite after_after.
    change ProducerFixedPort.routes with Producer.routes.
    match goal with
    | |- context [run_schedule _ _ _ ?W] =>
        destruct (producer_schedule_run sched W) as (evs & Hrun & _ & He & _)
    end; cbn [device draws after] in Hrun.
    exists evs. split; [exact Hrun | exact He]. }
  destruct Hold as (evs & Hold & He).
  split; [now rewrite Hold |]. split.
  - rewrite Hold. unfold drawn, after. cbn [snd trace]. rewrite <- app_assoc.
    eexists. split; [reflexivity |].
    rewrite getenvs_app, He. reflexivity.
  - intros port Hport. unfold env_or in Hport. rewrite Hold. cbn [fst].
    unfold Producer.main, Producer.getEnv. step_startup.
    rewrite Hport, bind_lift_ok. step_startup. repeat rewrite after_after.
    match goal with
    | |- context [run_schedule _ _ _ ?W] =>
        destruct (producer_schedule_run sched W) as (evs1 & Hrun & _)
    end; cbn [device draws after] in Hrun.
    rewrite Hrun. reflexivity.
Qed.

End ProducerMore.

Section UpstreamStartup.
Context `{Library}.

(** X11. When PORT is set to a text [std::stoi] rejects, the [main] of the
    processor and of the producer end with that exception after the
    starting line and the read of PORT; the processor has not yet read
    PRODUCER_HOST or PRODUCER_PORT. *)
Theorem upstream_services_startup_aborts (sched : list activity) (w : world)
  (text : string) (e : exn) :
  environ w "PORT" = Some text ->
  stoi text = Throw e ->
  Processor.main sched w =
    (Throw e,
     after w 0 [Print Cout "Producer starting..."; Endl Cout; Getenv "PORT"]) /\
  Producer.main sched w =
    (Throw e,
     after w 0 [Print Cout "Producer starting...:"; Endl Cout; Getenv "PORT"]).
Proof.
  intros Hport Hstoi. split.
  - unfold Processor.main, Processor.read_settings, Processor.getEnv.
    step_startup. rewrite Hport, Hstoi, bind_lift_throw.
    repeat rewrite after_after. reflexivity.
  - unfold Producer.main, Producer.getEnv.
    step_startup. rewrite Hport, Hstoi, bind_lift_throw.
    repeat rewrite after_after. reflexivity.
Qed.

End UpstreamStartup.

Section Pipeline.
Context `{Library}.
Variable config : Consumer.Config.
Variable settings : Processor.Settings.


End Pipeline.

(* ===================================================================== *)
(** * The services on concrete runs *)
(* ===================================================================== *)

#[local] Existing Instance Reference.reference_library.

Lemma health_always_healthy_witness :
  process_request (Consumer.routes default_config)
                  (mkRequest "GET" "/health" [("Accept", "*/*")] "ignored")
                  unreachable_world =
    (Ok (mkResponse 200
           (dump (obj_of [("status", JString "healthy");
                          ("service", JString "consumer")]))
           "application/json" []),
     unreachable_world).
Proof.
  apply (health_always_healthy default_config
           (mkRequest "GET" "/health" [("Accept", "*/*")] "ignored")
           unreachable_world); reflexivity.
Defined.

Lemma consume_relays_success_witness :
  exists resp,
    fst (process_request (Consumer.routes default_config) (get_request "/consume")
                         success_world) = Ok resp /\
    status resp = 200 /\
    body resp = success_body /\
    parse (body resp) = Some (obj_of [("original", JInt 42); ("processed", JInt 84)]).
Proof.
  apply (consume_relays_success default_config (get_request "/consume") success_world
           (mkResponse 200 success_body "application/json" []) 42 84); reflexivity.
Defined.

Lemma consume_malformed_body_unhandled_witness :
  Consumer.consume_handler default_config (get_request "/consume")
                           (malformed_world, fresh_response) =
    (Throw (parse_error "not json"),
     (after malformed_world 1 (manual_prologue default_config),
      mkResponse (-1) "not json" "application/json" [])) /\
  exists resp,
    fst (process_request (Consumer.routes default_config) (get_request "/consume")
                         malformed_world) = Ok resp /\
    body resp = "not json" /\
    parse (body resp) = None.
Proof.
  apply (consume_malformed_body_unhandled default_config (get_request "/consume")
           malformed_world (mkResponse 200 "not json" "text/plain" []));
    reflexivity.
Defined.

(** What is served for the malformed body, in full. *)
Example consume_malformed_body_served :
  fst (process_request (Consumer.routes default_config) (get_request "/consume")
                       malformed_world) =
    Ok (mkResponse 500 "not json" "application/json"
          [("EXCEPTION_WHAT", "[json.exception.parse_error.101] parse error")]).
Proof. reflexivity. Qed.

(** C4 as stated fails: a 200 whose body is the empty object lacks both
    fields, so the specification counts it among the failures, yet the
    poller logs it as a success and the manual trigger answers 200. *)
Lemma missing_fields_taken_as_success :
  upstream_failure (next_answer default_config empty_object_world) /\
  exists evs resp,
    Consumer.poll_iteration default_config empty_object_world =
      (Ok tt, after empty_object_world 1 evs) /\
    fst (process_request (Consumer.routes default_config) (get_request "/consume")
                         empty_object_world) = Ok resp /\
    poller_success evs /\ ~ poller_failure evs /\
    status resp = 200 /\ ~ handler_failure resp.
Proof.
  split.
  - apply (missing_or_non_integer_fields
             (mkResponse 200 "{}" "application/json" []) (JObject []));
      [reflexivity | reflexivity |].
    intros (fields & o & p & Heq & Ho & _).
    injection Heq as <-. discriminate.
  - exists (iteration_events default_config (next_answer default_config empty_object_world)).
    exists (mkResponse 200 "{}" "application/json" []).
    split; [apply poll_iteration_run |].
    split; [reflexivity |].
    split; [| split; [| split]].
    + split; [reflexivity |]. exists "null", "null". reflexivity.
    + intros [Hno _]. apply Hno. vm_compute. tauto.
    + reflexivity.
    + intros [Hstatus _]. discriminate.
Qed.

Lemma fetch_outcomes_witness :
  (exists evs,
     Consumer.poll_iteration default_config unreachable_world =
       (Ok tt, after unreachable_world 1 evs) /\
     poller_failure evs /\
     printed Cerr evs = "[ERROR] Failed to call Processor service" ++ newline /\
     exists resp,
       fst (process_request (Consumer.routes default_config) (get_request "/consume")
                            unreachable_world) = Ok resp /\
       handler_failure resp /\
       body resp = dump (obj_of [("error", JString "Failed to call Processor service")])) /\
  (exists evs,
     Consumer.poll_iteration default_config malformed_world =
       (Ok tt, after malformed_world 1 evs) /\
     poller_failure evs /\
     printed Cerr evs =
       "[ERROR] Consumption error: " ++ what (parse_error "not json") ++ newline) /\
  (exists evs,
     Consumer.poll_iteration default_config empty_object_world =
       (Ok tt, after empty_object_world 1 evs) /\
     poller_success evs /\
     printed Cout evs = "[CONSUME] Original: null, Processed: null" ++ newline /\
     fst (process_request (Consumer.routes default_config) (get_request "/consume")
                          empty_object_world) =
       Ok (mkResponse 200 "{}" "application/json" [])).
Proof.
  split; [| split].
  - exact (fetch_outcomes default_config (get_request "/consume") unreachable_world
             eq_refl eq_refl).
  - exact (fetch_outcomes default_config (get_request "/consume") malformed_world
             eq_refl eq_refl).
  - exact (fetch_outcomes default_config (get_request "/consume") empty_object_world
             eq_refl eq_refl).
Defined.

Lemma data_value_in_range_witness :
  exists v,
    1 <= v <= 100 /\
    fst (process_request Producer.routes (get_request "/data") unreachable_world) =
      Ok (mkResponse 200 (dump (obj_of [("value", JInt v)])) "application/json" []) /\
    fst (process_request ProducerFixedPort.routes (get_request "/data") unreachable_world) =
      Ok (mkResponse 200 (dump (obj_of [("value", JInt v)])) "application/json" []).
Proof.
  apply (data_value_in_range (get_request "/data") unreachable_world); reflexivity.
Defined.

Lemma process_doubles_witness :
  fst (process_request (Processor.routes default_settings) (get_request "/process")
                       producer_world) =
    Ok (mkResponse 200
          (dump (obj_of [("original", JInt 42); ("processed", JInt 84)]))
          "application/json" []).
Proof.
  apply (process_doubles default_settings (get_request "/process") producer_world
           (mkResponse 200 value_body "application/json" []) 42);
    try reflexivity.
  unfold doubling_fits, int_min, int_max. simpl. lia.
Defined.

Lemma configuration_built_once_witness :
  fst (Consumer.loadConfig configured_world) =
    Ok (Consumer.mkConfig 9000 "localhost" "8081" 5 "http://localhost:8081") /\
  exists resps w' evs n w1,
    Consumer.main sample_schedule configured_world = (Ok resps, w') /\
    Consumer.main sample_schedule configured_world =
      run_schedule
        (Consumer.poll_iteration
           (Consumer.mkConfig 9000 "localhost" "8081" 5 "http://localhost:8081"))
        (Consumer.routes
           (Consumer.mkConfig 9000 "localhost" "8081" 5 "http://localhost:8081"))
        sample_schedule w1 /\
    trace w' = (trace configured_world ++ evs)%list /\
    environ w' = environ configured_world /\
    getenvs evs = ["PORT"; "PROCESSOR_HOST"; "PROCESSOR_PORT"; "POLL_INTERVAL_SECONDS"] /\
    http_gets evs = repeat ("http://localhost:8081", "/process") n.
Proof.
  exact (configuration_built_once sample_schedule configured_world 9000 5
           eq_refl eq_refl).
Defined.

Lemma processor_target_fixed_witness :
  (exists evs evs',
     trace (snd (Processor.main [Incoming (get_request "/process")] producer_world)) =
       (trace producer_world ++ evs)%list /\
     trace (snd (Processor.main [Incoming (get_request "/process")]
                                (with_environ redirected_environ producer_world))) =
       (trace producer_world ++ evs')%list /\
     http_gets evs = http_gets evs' /\
     Forall (fun target => target = ("http://producer:8080", "/data")) (http_gets evs) /\
     http_gets evs = [("http://producer:8080", "/data")]) /\
  (forall (settings : Processor.Settings) (req : Request) (w0 : world),
     routed_to "/process" req = true ->
     exists resp evs,
       process_request (Processor.routes settings) req w0 = (Ok resp, after w0 1 evs) /\
       http_gets evs = [("http://producer:8080", "/data")]) /\
  (forall s1 s2 : Processor.Settings, Processor.routes s1 = Processor.routes s2).
Proof.
  apply (processor_target_fixed [Incoming (get_request "/process")] producer_world
           redirected_environ).
  intros name Hhost Hport. unfold redirected_environ. simpl.
  destruct (String.eqb_spec name "PRODUCER_HOST") as [Heq | _]; [contradiction |].
  destruct (String.eqb_spec name "PRODUCER_PORT") as [Heq | _]; [contradiction |].
  reflexivity.
Defined.

(** The redirected processor still asks the hardcoded producer, while its
    banner announces the configured one. *)
Example redirected_processor_run :
  let w' := snd (Processor.main [Incoming (get_request "/process")]
                                (with_environ redirected_environ producer_world)) in
  http_gets (trace w') = [("http://producer:8080", "/data")] /\
  In (Print Cout "http://elsewhere:9999") (trace w').
Proof. vm_compute. intuition. Qed.

(** The text served by [GET /health]. *)
Example health_body_text :
  dump (obj_of [("status", JString "healthy"); ("service", JString "consumer")]) =
  "{" ++ Reference.quoted "service" ++ ":" ++ Reference.quoted "consumer" ++ "," ++
  Reference.quoted "status" ++ ":" ++ Reference.quoted "healthy" ++ "}".
Proof. reflexivity. Qed.

(** Four iterations of the poller against an upstream that alternates
    between success and failure: four lines, two on each stream, and the
    thread still looping. *)
Example poller_on_alternating_upstream :
  let run := Consumer.consumptionThread default_config 4 alternating_world in
  fst run = Ok StillLooping /\
  lines (trace (snd run)) = 4%nat /\
  sleeps (trace (snd run)) = [1; 5; 5; 5; 5] /\
  printed Cout (trace (snd run)) =
    "[CONSUME] Original: 42, Processed: 84" ++ newline ++
    "[CONSUME] Original: 42, Processed: 84" ++ newline /\
  printed Cerr (trace (snd run)) =
    "[ERROR] Failed to call Processor service" ++ newline ++
    "[ERROR] Failed to call Processor service" ++ newline.
Proof. vm_compute. repeat split. Qed.

(* ===================================================================== *)
(** * Startup, error paths and whole runs on concrete inputs *)
(* ===================================================================== *)

Lemma loadConfig_defaults_witness :
  fst (Consumer.loadConfig unreachable_world) = Ok default_config.
Proof.
  exact (loadConfig_defaults unreachable_world eq_refl eq_refl).
Defined.

Lemma loadConfig_reads_back_witness :
  fst (Consumer.loadConfig (with_environ unchecked_environ unreachable_world)) =
    Ok (Consumer.mkConfig 70000 "processor" "8081" (-3) "http://processor:8081").
Proof.
  apply (loadConfig_reads_back (with_environ unchecked_environ unreachable_world)
           70000 (-3));
    try reflexivity; unfold int_min, int_max; simpl; lia.
Defined.

Lemma consumer_startup_aborts_witness :
  exists evs,
    Consumer.main sample_schedule (with_environ (port_environ "") unreachable_world) =
      (Throw (invalid_argument "stoi"),
       after (with_environ (port_environ "") unreachable_world) 0 evs) /\
    http_gets evs = [] /\
    sleeps evs = [] /\
    printed Cout evs = "Consumer starting..." ++ newline.
Proof.
  apply (consumer_startup_aborts sample_schedule
           (with_environ (port_environ "") unreachable_world)
           (invalid_argument "stoi")).
  reflexivity.
Defined.

Lemma consume_non_object_unhandled_witness :
  Consumer.consume_handler default_config (get_request "/consume")
                           (array_world, fresh_response) =
    (Throw (type_error 305 (JArray [JInt 1; JInt 2])),
     (after array_world 1
            (manual_prologue default_config ++ [Print Cout "[MANUAL] Original: "]),
      mkResponse (-1) "[1,2]" "application/json" [])).
Proof.
  apply (consume_non_object_unhandled default_config (get_request "/consume")
           array_world (mkResponse 200 "[1,2]" "application/json" [])
           (JArray [JInt 1; JInt 2]));
    reflexivity.
Defined.

Lemma process_reports_failure_witness :
  process_request (Processor.routes default_settings) (get_request "/process")
                  unreachable_world =
    (Ok (mkResponse 500
           (dump (obj_of [("error", JString "Failed to call Producer service")]))
           "application/json" []),
     after unreachable_world 1
           (producer_request ++
            [Print Cerr "Error: Could not reach Producer"; Endl Cerr])).
Proof.
  apply (process_reports_failure default_settings (get_request "/process")
           unreachable_world); reflexivity.
Defined.

Lemma process_casts_and_doubles_witness :
  process_request (Processor.routes default_settings) (get_request "/process")
                  wide_value_world =
    (Ok (mkResponse 200
           (dump (obj_of [("original", JInt 42); ("processed", JInt 84)]))
           "application/json" []),
     after wide_value_world 1
           (producer_request ++
            [Print Cout "Recieved: "; Print Cout "42";
             Print Cout ", Processed: "; Print Cout "84"; Endl Cout])).
Proof.
  apply (process_casts_and_doubles default_settings (get_request "/process")
           wide_value_world (mkResponse 200 wide_value_body "application/json" [])
           [("unit", JString "x"); ("value", JInt 4294967338)] 4294967338);
    try reflexivity.
  unfold doubling_fits, int_min, int_max. simpl. lia.
Defined.

Lemma process_handler_all_or_nothing_witness :
  snd (Processor.process_handler (get_request "/process")
                                 (malformed_world, fresh_response)) =
    (after malformed_world 1 producer_request, fresh_response).
Proof.
  apply (process_handler_all_or_nothing (get_request "/process") malformed_world
           (parse_error "not json")).
  reflexivity.
Defined.

Lemma process_rejects_missing_value_witness :
  Processor.process_handler (get_request "/process")
                            (empty_object_world, fresh_response) =
    (Throw (type_error 302 JNull),
     (after empty_object_world 1 producer_request, fresh_response)).
Proof.
  apply (process_rejects_missing_value (get_request "/process") empty_object_world
           (mkResponse 200 "{}" "application/json" []) (JObject []) []);
    reflexivity.
Defined.

Lemma upstream_services_startup_aborts_witness :
  Processor.main data_schedule (with_environ (port_environ "eighty") unreachable_world) =
    (Throw (invalid_argument "stoi"),
     after (with_environ (port_environ "eighty") unreachable_world) 0
           [Print Cout "Producer starting..."; Endl Cout; Getenv "PORT"]) /\
  Producer.main data_schedule (with_environ (port_environ "eighty") unreachable_world) =
    (Throw (invalid_argument "stoi"),
     after (with_environ (port_environ "eighty") unreachable_world) 0
           [Print Cout "Producer starting...:"; Endl Cout; Getenv "PORT"]).
Proof.
  apply (upstream_services_startup_aborts data_schedule
           (with_environ (port_environ "eighty") unreachable_world)
           "eighty" (invalid_argument "stoi")); reflexivity.
Defined.


Lemma producer_revisions_agree_witness :
  fst (ProducerFixedPort.main data_schedule
         (with_environ (port_environ "eighty") unreachable_world)) =
    Ok (data_responses (device unreachable_world) (draws unreachable_world)
                       data_schedule) /\
  fst (Producer.main data_schedule unreachable_world) =
    fst (ProducerFixedPort.main data_schedule unreachable_world).
Proof.
  split.
  - exact (proj1 (producer_revisions_agree data_schedule
                    (with_environ (port_environ "eighty") unreachable_world))).
  - exact (proj2 (proj2 (producer_revisions_agree data_schedule unreachable_world))
                 8080 eq_refl).
Defined.


(** One iteration of the poller against a body that is JSON but not an
    object: the start of the line of values stays on the output, without
    its end, and the error line goes to the error stream. *)
Example poller_on_array_body :
  let run := Consumer.consumptionThread default_config 1 array_world in
  fst run = Ok StillLooping /\
  lines (trace (snd run)) = 1%nat /\
  printed Cout (trace (snd run)) = "[CONSUME] Original: " /\
  printed Cerr (trace (snd run)) =
    "[ERROR] Consumption error: " ++
    what (type_error 305 (JArray [JInt 1; JInt 2])) ++ newline.
Proof. vm_compute. repeat split. Qed.
